(** * typed-notion: schema definition and runtime value validation

    A shallow embedding of the schema layer of the typed-notion library:

    - [validator.ts]: the hand-written structural check
      ([validateSchemaStructure], [validatePropertyStructure],
      [validatePropertyName], [validateSelectionOptions]) and the runtime
      value check ([validatePropertyValue]);
    - [validation.ts]: the valibot schemas behind [validateSchemaDefinition],
      which is what the [TypedSchema] constructor runs;
    - [typed-schema.ts]: the [TypedSchema] handle ([hasProperty],
      [getProperty], [createPropertyValidator], ...);
    - [errors/index.ts]: the typed exceptions.

    Values typed [unknown] in the source are modelled by [JsValue]; values
    the source types ([PropertyDefinition], [SchemaDefinition]) are records
    and inductive types, embedded into [JsValue] where the source hands them
    to a function taking [unknown].  Exceptions are an explicit [Result];
    the clock and the platform's renderings of numbers, dates and URLs are
    parameters. *)

From Stdlib Require Import List String Ascii Bool ZArith Lia PeanoNat.
From Stdlib Require Import PrimFloat DecimalString.
Import ListNotations.

Local Open Scope string_scope.
Local Open Scope list_scope.

Set Implicit Arguments.
Set Warnings "-register-all".

(* ------------------------------------------------------------------ *)
(** ** JavaScript values *)

(** A JavaScript number is an IEEE-754 binary64 value. *)
Definition float64 := float.

(** The values the validators can receive.  Strings are sequences of code
    units below 256; arrays are dense; function values and objects with a
    prototype other than [Object.prototype] are left out. *)
Inductive JsValue : Type :=
| JsUndefined
| JsNull
| JsBoolean (b : bool)
| JsNumber (x : float64)
| JsString (s : string)
| JsDate (time : float64)
| JsArray (items : list JsValue)
| JsObject (fields : list (string * JsValue)).

(** [typeof v] *)
Definition typeof (v : JsValue) : string :=
  match v with
  | JsUndefined => "undefined"
  | JsNull => "object"
  | JsBoolean _ => "boolean"
  | JsNumber _ => "number"
  | JsString _ => "string"
  | JsDate _ | JsArray _ | JsObject _ => "object"
  end.

(** The global [isNaN] on a number. *)
Definition isNaN (x : float64) : bool := PrimFloat.is_nan x.

(** [Number.isFinite]: neither NaN nor an infinity. *)
Definition isFinite (x : float64) : bool :=
  negb (PrimFloat.is_nan x) && negb (PrimFloat.is_infinity x).

(** ToBoolean: the falsy values are undefined, null, false, +0, -0, NaN and
    the empty string. *)
Definition truthy (v : JsValue) : bool :=
  match v with
  | JsUndefined | JsNull => false
  | JsBoolean b => b
  | JsNumber x => negb (PrimFloat.is_zero x || PrimFloat.is_nan x)
  | JsString s => negb (Nat.eqb (String.length s) 0)
  | JsDate _ | JsArray _ | JsObject _ => true
  end.

Definition Array_isArray (v : JsValue) : bool :=
  match v with JsArray _ => true | _ => false end.

Definition instanceof_Date (v : JsValue) : bool :=
  match v with JsDate _ => true | _ => false end.

(** [v && typeof v === 'object'] *)
Definition is_non_null_object (v : JsValue) : bool :=
  truthy v && String.eqb (typeof v) "object".

(** [v === null || v === undefined] *)
Definition is_nullish (v : JsValue) : bool :=
  match v with JsUndefined | JsNull => true | _ => false end.

(** Own-field lookup in an object literal: the first entry with the key. *)
Fixpoint assoc {A : Type} (key : string) (fields : list (string * A)) : option A :=
  match fields with
  | [] => None
  | (k, a) :: rest => if String.eqb k key then Some a else assoc key rest
  end.

(** A member read [v.key].  The source reads only the keys [databaseId],
    [properties], [type], [format], [options], [id] and [name], none of
    which is defined on [Object.prototype], [Array.prototype] or
    [Date.prototype]: the read yields the own field, or undefined. *)
Definition js_get (v : JsValue) (key : string) : JsValue :=
  match v with
  | JsObject fields =>
      match assoc key fields with Some x => x | None => JsUndefined end
  | _ => JsUndefined
  end.

(** [v === "lit"] for a string literal. *)
Definition is_string_lit (v : JsValue) (lit : string) : bool :=
  match v with JsString s => String.eqb s lit | _ => false end.

Definition number_of_nat (n : nat) : string :=
  NilZero.string_of_uint (Nat.to_uint n).

(** [Object.entries(v)] for a value with [typeof v === 'object']: the own
    enumerable fields, in enumeration order; an array lists its indices. *)
Fixpoint index_entries (i : nat) (items : list JsValue) : list (string * JsValue) :=
  match items with
  | [] => []
  | x :: rest => (number_of_nat i, x) :: index_entries (S i) rest
  end.

Definition Object_entries (v : JsValue) : list (string * JsValue) :=
  match v with
  | JsObject fields => fields
  | JsArray items => index_entries 0 items
  | _ => []
  end.

(* ------------------------------------------------------------------ *)
(** ** Typed exceptions ([errors/index.ts]) and results *)

(** The classes extending [TypedNotionError], each with its context. *)
Inductive TypedNotionError : Type :=
| SchemaValidationError (property expected : string) (received : JsValue)
| PropertyAccessError (property schema : string)
| PropertyValidationError (property : string) (value : JsValue) (expectedType : string)
| SelectionValidationError (property : string) (value : JsValue) (validOptions : list string)
| NotionAPIError (status : float64) (message : string) (request_id : option string).

(** The [code] field of each class. *)
Definition code (e : TypedNotionError) : string :=
  match e with
  | SchemaValidationError _ _ _ => "SCHEMA_VALIDATION_ERROR"
  | PropertyAccessError _ _ => "PROPERTY_ACCESS_ERROR"
  | PropertyValidationError _ _ _ => "PROPERTY_VALIDATION_ERROR"
  | SelectionValidationError _ _ _ => "SELECTION_VALIDATION_ERROR"
  | NotionAPIError _ _ _ => "NOTION_API_ERROR"
  end.

(** What a call can throw: one of the typed exceptions of the library, or
    the [TypeError] of the platform. *)
Inductive Thrown : Type :=
| NotionError (e : TypedNotionError)
| TypeError.

Coercion NotionError : TypedNotionError >-> Thrown.

(** A call either returns or throws. *)
Inductive Result (A : Type) : Type :=
| Ok (a : A)
| Throw (e : Thrown).

Arguments Ok {A} a.
Arguments Throw {A} e.

Definition bind {A B : Type} (r : Result A) (k : A -> Result B) : Result B :=
  match r with
  | Ok a => k a
  | Throw e => Throw e
  end.

Notation "x <- r ;; k" := (bind r (fun x => k))
  (at level 61, r at next level, right associativity).
Notation "r ;;; k" := (bind r (fun _ => k))
  (at level 61, right associativity).

(** [if (cond) throw e;] *)
Definition throw_if (cond : bool) (e : Thrown) : Result unit :=
  if cond then Throw e else Ok tt.

Definition returns {A : Type} (r : Result A) : bool :=
  match r with Ok _ => true | Throw _ => false end.

(* ------------------------------------------------------------------ *)
(** ** Regular expressions

    The patterns of the source are anchored with [^] (and most with [$]);
    they are matched with Brzozowski derivatives. *)

Module Regex.

Inductive t : Type :=
| Void
| Eps
| Class (p : ascii -> bool)
| Cat (r1 r2 : t)
| Alt (r1 r2 : t)
| Star (r : t).

Fixpoint nullable (r : t) : bool :=
  match r with
  | Void => false
  | Eps => true
  | Class _ => false
  | Cat r1 r2 => nullable r1 && nullable r2
  | Alt r1 r2 => nullable r1 || nullable r2
  | Star _ => true
  end.

(** Concatenation and alternation that drop [Void] and [Eps], so that the
    derivatives stay small. *)
Definition cat (r1 r2 : t) : t :=
  match r1, r2 with
  | Void, _ => Void
  | _, Void => Void
  | Eps, _ => r2
  | _, Eps => r1
  | _, _ => Cat r1 r2
  end.

Definition alt (r1 r2 : t) : t :=
  match r1, r2 with
  | Void, _ => r2
  | _, Void => r1
  | _, _ => Alt r1 r2
  end.

Fixpoint deriv (c : ascii) (r : t) : t :=
  match r with
  | Void => Void
  | Eps => Void
  | Class p => if p c then Eps else Void
  | Cat r1 r2 =>
      if nullable r1
      then alt (cat (deriv c r1) r2) (deriv c r2)
      else cat (deriv c r1) r2
  | Alt r1 r2 => alt (deriv c r1) (deriv c r2)
  | Star r1 => cat (deriv c r1) (Star r1)
  end.

Fixpoint matches (r : t) (s : string) : bool :=
  match s with
  | EmptyString => nullable r
  | String c rest => matches (deriv c r) rest
  end.

(** [r+] and [r{n}] *)
Definition Plus (r : t) : t := Cat r (Star r).

Fixpoint Repeat (n : nat) (r : t) : t :=
  match n with
  | O => Eps
  | S k => Cat r (Repeat k r)
  end.

Definition Char (c : ascii) : t := Class (Ascii.eqb c).

Definition Any : t := Class (fun _ => true).

(** [/^r$/.test(s)]: the whole string matches. *)
Definition test_whole (r : t) (s : string) : bool := matches r s.

(** [/^r/.test(s)]: a prefix of the string matches. *)
Definition test_prefix (r : t) (s : string) : bool := matches (Cat r (Star Any)) s.

(** The words of a regular expression. *)
Inductive denotes : t -> string -> Prop :=
| D_Eps : denotes Eps ""
| D_Class (p : ascii -> bool) (c : ascii) : p c = true -> denotes (Class p) (String c "")
| D_Cat (r1 r2 : t) (s1 s2 : string) :
    denotes r1 s1 -> denotes r2 s2 -> denotes (Cat r1 r2) (s1 ++ s2)
| D_AltL (r1 r2 : t) (s : string) : denotes r1 s -> denotes (Alt r1 r2) s
| D_AltR (r1 r2 : t) (s : string) : denotes r2 s -> denotes (Alt r1 r2) s
| D_StarNil (r : t) : denotes (Star r) ""
| D_StarApp (r : t) (s1 s2 : string) :
    denotes r s1 -> denotes (Star r) s2 -> denotes (Star r) (s1 ++ s2).

End Regex.

(** Character classes of the source's patterns. *)
Definition in_range (lo hi : nat) (c : ascii) : bool :=
  (lo <=? nat_of_ascii c)%nat && (nat_of_ascii c <=? hi)%nat.

Definition is_lower (c : ascii) : bool := in_range 97 122 c.
Definition is_upper (c : ascii) : bool := in_range 65 90 c.
Definition is_digit (c : ascii) : bool := in_range 48 57 c.
Definition is_letter (c : ascii) : bool := is_lower c || is_upper c.

(** [\s] (and what [trim] strips) among the code units below 256: tab, line
    feed, vertical tab, form feed, carriage return, space, no-break space. *)
Definition is_space (c : ascii) : bool :=
  in_range 9 13 c || Nat.eqb (nat_of_ascii c) 32 || Nat.eqb (nat_of_ascii c) 160.

(** [[a-f0-9\-]] *)
Definition is_id_char (c : ascii) : bool :=
  in_range 97 102 c || is_digit c || Ascii.eqb c "-".

(** [[a-zA-Z0-9_\s]] *)
Definition is_name_char (c : ascii) : bool :=
  is_letter c || is_digit c || Ascii.eqb c "_" || is_space c.

(** [[^\s@]] *)
Definition is_not_space_at (c : ascii) : bool :=
  negb (is_space c || Ascii.eqb c "@").

(** Every character of the string satisfies [p]. *)
Fixpoint all_chars (p : ascii -> bool) (s : string) : bool :=
  match s with
  | EmptyString => true
  | String c rest => p c && all_chars p rest
  end.

(** [s.trim()] *)
Fixpoint trimStart (s : string) : string :=
  match s with
  | String c rest => if is_space c then trimStart rest else s
  | EmptyString => EmptyString
  end.

Fixpoint string_rev_onto (s acc : string) : string :=
  match s with
  | EmptyString => acc
  | String c rest => string_rev_onto rest (String c acc)
  end.

Definition string_rev (s : string) : string := string_rev_onto s EmptyString.

Definition trim (s : string) : string :=
  string_rev (trimStart (string_rev (trimStart s))).

(** [s.repeat(n)] *)
Fixpoint repeat_string (s : string) (n : nat) : string :=
  match n with
  | O => EmptyString
  | S k => (s ++ repeat_string s k)%string
  end.

(** [parts.join(sep)] *)
Fixpoint join (sep : string) (parts : list string) : string :=
  match parts with
  | [] => EmptyString
  | [p] => p
  | p :: rest => (p ++ sep ++ join sep rest)%string
  end.

(** A template literal: its pieces, concatenated. *)
Definition template (pieces : list string) : string := String.concat "" pieces.

(* ------------------------------------------------------------------ *)
(** ** Objects and the [in] operator *)

(** The property names every object literal inherits from
    [Object.prototype]. *)
Definition Object_prototype_keys : list string :=
  [ "constructor"; "__defineGetter__"; "__defineSetter__"; "hasOwnProperty";
    "__lookupGetter__"; "__lookupSetter__"; "isPrototypeOf";
    "propertyIsEnumerable"; "toString"; "valueOf"; "__proto__";
    "toLocaleString" ].

Definition mem_string (key : string) (keys : list string) : bool :=
  existsb (String.eqb key) keys.

(** The keys that an object literal or a record schema does not treat as
    it does the others: [__proto__] in a literal sets the prototype, and a
    record schema passes over it and over [prototype] and [constructor]. *)
Definition special_keys : list string := ["__proto__"; "prototype"; "constructor"].

Definition has_own {A : Type} (key : string) (fields : list (string * A)) : bool :=
  match assoc key fields with Some _ => true | None => false end.

(** [key in record] for an object literal: own fields, then the prototype
    chain. *)
Definition Record_in {A : Type} (key : string) (fields : list (string * A)) : bool :=
  has_own key fields || mem_string key Object_prototype_keys.

(** What a read [record[key]] of an object literal with fields of type [A]
    evaluates to: the own field, a member inherited from
    [Object.prototype], or undefined. *)
Inductive Member (A : Type) : Type :=
| Own (a : A)
| Inherited (key : string)
| Undefined.

Arguments Own {A} a.
Arguments Inherited {A} key.
Arguments Undefined {A}.

Definition Record_get {A : Type} (fields : list (string * A)) (key : string) : Member A :=
  match assoc key fields with
  | Some a => Own a
  | None => if mem_string key Object_prototype_keys then Inherited key else Undefined
  end.

(** [key in v]; the source applies it to property definitions, which are
    object literals. *)
Definition js_in (key : string) (v : JsValue) : bool :=
  match v with
  | JsObject fields => Record_in key fields
  | _ => false
  end.

(** [new Set(strings).size] *)
Definition Set_size (strings : list string) : nat :=
  List.length (nodup string_dec strings).

(** The elements of an array that are strings
    ([options.filter(option => typeof option === 'string')]). *)
Fixpoint strings_of (items : list JsValue) : list string :=
  match items with
  | [] => []
  | JsString s :: rest => s :: strings_of rest
  | _ :: rest => strings_of rest
  end.

(* ------------------------------------------------------------------ *)
(** ** Core types ([types/core.ts]) *)

Inductive NumberFormat : Type :=
| format_number
| format_percent
| format_dollar.

(** [PropertyDefinition]: the union discriminated by [type]. *)
Inductive PropertyDefinition : Type :=
| title
| rich_text
| number (format : option NumberFormat)
| checkbox
| date
| url
| email
| select (options : list string)
| multi_select (options : list string)
| people.

(** [SchemaDefinition]; [properties] lists the object's fields in
    enumeration order. *)
Record SchemaDefinition : Type := {
  databaseId : string;
  properties : list (string * PropertyDefinition)
}.

(** The [type] tag of a definition. *)
Definition type_of (d : PropertyDefinition) : string :=
  match d with
  | title => "title"
  | rich_text => "rich_text"
  | number _ => "number"
  | checkbox => "checkbox"
  | date => "date"
  | url => "url"
  | email => "email"
  | select _ => "select"
  | multi_select _ => "multi_select"
  | people => "people"
  end.

Definition format_tag (f : NumberFormat) : string :=
  match f with
  | format_number => "number"
  | format_percent => "percent"
  | format_dollar => "dollar"
  end.

(** A typed definition seen as a plain value, as a function taking
    [unknown] receives it. *)
Definition js_of_property (d : PropertyDefinition) : JsValue :=
  match d with
  | number (Some f) =>
      JsObject [("type", JsString "number"); ("format", JsString (format_tag f))]
  | select options =>
      JsObject [("type", JsString "select"); ("options", JsArray (map JsString options))]
  | multi_select options =>
      JsObject [("type", JsString "multi_select"); ("options", JsArray (map JsString options))]
  | _ => JsObject [("type", JsString (type_of d))]
  end.

Definition js_of_properties (props : list (string * PropertyDefinition)) : JsValue :=
  JsObject (map (fun entry => (fst entry, js_of_property (snd entry))) props).

Definition js_of_schema (s : SchemaDefinition) : JsValue :=
  JsObject [("databaseId", JsString (databaseId s));
            ("properties", js_of_properties (properties s))].

(* ------------------------------------------------------------------ *)
(** ** The structural and runtime validators ([schema/validator.ts]) *)

Record ValidationResult : Type := {
  isValid : bool;
  errors : list string
}.

(** The counts are integers (of a size that a template literal prints in
    plain decimal notation). *)
Record ValidationConfig : Type := {
  maxProperties : Z;
  minProperties : Z;
  requireTitle : bool;
  allowMultipleTitles : bool
}.

Definition DEFAULT_VALIDATION_CONFIG : ValidationConfig :=
  {| maxProperties := 20;
     minProperties := 1;
     requireTitle := true;
     allowMultipleTitles := false |}.

(** An integer in a template literal. *)
Definition string_of_Z (z : Z) : string := NilZero.string_of_int (Z.to_int z).

(** [/^[a-f0-9\-]{36}$/] *)
Definition databaseId_pattern : Regex.t :=
  Regex.Repeat 36 (Regex.Class is_id_char).

(** [/^[a-zA-Z]/] *)
Definition leading_letter_pattern : Regex.t := Regex.Class is_letter.

(** [/^[a-zA-Z][a-zA-Z0-9_\s]*$/] *)
Definition propertyName_pattern : Regex.t :=
  Regex.Cat (Regex.Class is_letter) (Regex.Star (Regex.Class is_name_char)).

(** [/^[^\s@]+@[^\s@]+\.[^\s@]+$/] *)
Definition emailRegex : Regex.t :=
  Regex.Cat (Regex.Plus (Regex.Class is_not_space_at))
    (Regex.Cat (Regex.Char "@")
       (Regex.Cat (Regex.Plus (Regex.Class is_not_space_at))
          (Regex.Cat (Regex.Char ".") (Regex.Plus (Regex.Class is_not_space_at))))).

Definition validTypes : list string :=
  [ "title"; "rich_text"; "number"; "checkbox"; "date";
    "url"; "email"; "select"; "multi_select"; "people" ].

(** [typeof v !== 'object'] and the like compare against a literal. *)
Definition typeof_is (v : JsValue) (t : string) : bool := String.eqb (typeof v) t.

Definition isPropertyDefinition (value : JsValue) : bool :=
  if negb (truthy value) || negb (typeof_is value "object") then false
  else
    let type := js_get value "type" in
    if negb (truthy type) || negb (typeof_is type "string") then false
    else match type with
         | JsString t => mem_string t validTypes
         | _ => false
         end.

Definition isValidDatabaseId (id : string) : bool :=
  Regex.test_whole databaseId_pattern id.

Definition isValidEmail (email : string) : bool :=
  Regex.test_whole emailRegex email && (String.length email <=? 254)%nat.

Definition isValidNotionUser (user : JsValue) : bool :=
  if negb (truthy user) || negb (typeof_is user "object") then false
  else
    let id := js_get user "id" in
    let name := js_get user "name" in
    let type := js_get user "type" in
    typeof_is id "string"
    && match id with JsString s => (0 <? String.length s)%nat | _ => false end
    && (is_nullish name || typeof_is name "string")
    && (is_string_lit type "person" || is_string_lit type "bot").

Definition isValidNumberFormat (format : JsValue) : bool :=
  is_string_lit format "number" || is_string_lit format "percent"
  || is_string_lit format "dollar".

(** [validatePropertyName(name: string): string[]]; for a string, [!name]
    says that it is empty. *)
Definition validatePropertyName (name : string) : list string :=
  if Nat.eqb (String.length name) 0 then
    ["Property name must be a non-empty string"]
  else
    (if Nat.eqb (String.length name) 0
     then ["Property name cannot be empty"] else [])
    ++ (if (100 <? String.length name)%nat
        then ["Property name cannot exceed 100 characters"] else [])
    ++ (if negb (Regex.test_prefix leading_letter_pattern name)
        then ["Property name must start with a letter"] else [])
    ++ (if negb (Regex.test_whole propertyName_pattern name)
        then ["Property name can only contain letters, numbers, underscores, and spaces"]
        else []).

(** [validateSelectionOptions(options: unknown, propertyName: string): string[]] *)
Definition validateSelectionOptions (options : JsValue) (propertyName : string)
  : list string :=
  match options with
  | JsArray items =>
      (if Nat.eqb (List.length items) 0
       then [template ["Property '"; propertyName; "': Selection options cannot be empty"]]
       else [])
      ++ (let invalidOptions :=
            filter (fun option => negb (typeof_is option "string")) items in
          if (0 <? List.length invalidOptions)%nat
          then [template ["Property '"; propertyName; "': All options must be strings"]]
          else [])
      ++ (let emptyOptions :=
            filter (fun option =>
                      match option with
                      | JsString s => Nat.eqb (String.length (trim s)) 0
                      | _ => false
                      end) items in
          if (0 <? List.length emptyOptions)%nat
          then [template ["Property '"; propertyName; "': Options cannot be empty strings"]]
          else [])
      ++ (let stringOptions := strings_of items in
          if negb (Nat.eqb (Set_size stringOptions) (List.length stringOptions))
          then [template ["Property '"; propertyName; "': Options must be unique"]]
          else [])
  | _ => [template ["Property '"; propertyName; "': Options must be an array"]]
  end.

(** The [for] loop over the property entries: the errors of each entry
    in turn, unless a check throws. *)
Fixpoint collect_errors (check : string -> JsValue -> Result (list string))
    (entries : list (string * JsValue)) : Result (list string) :=
  match entries with
  | [] => Ok []
  | entry :: rest =>
      found <- check (fst entry) (snd entry) ;;
      more <- collect_errors check rest ;;
      Ok (found ++ more)
  end.

Section Platform.

(** Three operations of the JavaScript platform are taken as parameters:
    the decimal rendering of a number, the rendering of a date, and the
    [URL] constructor, which gives the [protocol] of a string that parses
    as an absolute URL and throws ([None]) on any other string. *)
Variable Number_toString : float64 -> string.
Variable Date_toString : float64 -> string.
Variable URL_protocol : string -> option string.

(** The string conversion a template literal applies to a value; [None]
    when it throws a [TypeError].  An array joins the conversions of its
    elements, null and undefined giving the empty string.  An object
    literal is converted by the [toString] it finds: the inherited one
    gives ["[object Object]"]; an own [toString] field holds a value that
    cannot be called, [valueOf] gives no primitive either, and the
    conversion throws. *)
Fixpoint ToString (x : JsValue) : option string :=
  match x with
  | JsUndefined => Some "undefined"
  | JsNull => Some "null"
  | JsBoolean b => Some (if b then "true" else "false")
  | JsNumber n => Some (Number_toString n)
  | JsString s => Some s
  | JsDate time => Some (Date_toString time)
  | JsArray items =>
      option_map (join ",")
        ((fix pieces (l : list JsValue) : option (list string) :=
            match l with
            | [] => Some []
            | item :: rest =>
                match (if is_nullish item then Some "" else ToString item),
                      pieces rest with
                | Some piece, Some others => Some (piece :: others)
                | _, _ => None
                end
            end) items)
  | JsObject fields =>
      if has_own "toString" fields then None else Some "[object Object]"
  end.

Definition isValidURL (url : string) : bool :=
  match URL_protocol url with
  | Some protocol => String.eqb protocol "http:" || String.eqb protocol "https:"
  | None => false
  end.

(** [validatePropertyStructure(name: string, definition: unknown): string[]] *)
Definition validatePropertyStructure (name : string) (definition : JsValue)
  : Result (list string) :=
  let nameErrors := validatePropertyName name in
  if negb (isPropertyDefinition definition) then
    Ok (nameErrors
        ++ [template ["Property '"; name; "': Invalid property definition structure"]])
  else
    let type := js_get definition "type" in
    if is_string_lit type "number" then
      let format := js_get definition "format" in
      if truthy format && negb (isValidNumberFormat format)
      then match ToString format with
           | Some text =>
               Ok (nameErrors
                   ++ [template ["Property '"; name; "': Invalid number format '";
                                 text; "'"]])
           | None => Throw TypeError
           end
      else Ok nameErrors
    else if is_string_lit type "select" || is_string_lit type "multi_select" then
      let options := js_get definition "options" in
      if negb (js_in "options" definition) || negb (Array_isArray options)
      then Ok (nameErrors
               ++ [template ["Property '"; name;
                             "': Selection properties must have options array"]])
      else Ok (nameErrors ++ validateSelectionOptions options name)
    else Ok nameErrors.

(** [validateSchemaStructure(schema: unknown, config): ValidationResult] *)
Definition validateSchemaStructure (schema : JsValue) (config : ValidationConfig)
  : Result ValidationResult :=
  if negb (truthy schema) || negb (typeof_is schema "object") then
    Ok {| isValid := false; errors := ["Schema must be a non-null object"] |}
  else
    let id := js_get schema "databaseId" in
    let idErrors :=
      if negb (truthy id) || negb (typeof_is id "string")
      then ["Database ID is required and must be a string"]
      else match id with
           | JsString text =>
               if negb (isValidDatabaseId text)
               then ["Database ID must be a valid UUID format"]
               else []
           | _ => []
           end in
    let props := js_get schema "properties" in
    if negb (truthy props) || negb (typeof_is props "object") then
      Ok {| isValid := false;
            errors := idErrors ++ ["Properties are required and must be an object"] |}
    else
      let propertyEntries := Object_entries props in
      let count := Z.of_nat (List.length propertyEntries) in
      let titleProperties :=
        filter (fun entry =>
                  isPropertyDefinition (snd entry)
                  && is_string_lit (js_get (snd entry) "type") "title")
               propertyEntries in
      let ruleErrors :=
        idErrors
        ++ (if (count <? minProperties config)%Z
            then [template ["Schema must have at least ";
                            string_of_Z (minProperties config); " property"]]
            else [])
        ++ (if (maxProperties config <? count)%Z
            then [template ["Schema cannot have more than ";
                            string_of_Z (maxProperties config); " properties"]]
            else [])
        ++ (if requireTitle config && Nat.eqb (List.length titleProperties) 0
            then ["Schema must have exactly one title property"] else [])
        ++ (if negb (allowMultipleTitles config) && (1 <? List.length titleProperties)%nat
            then ["Schema cannot have multiple title properties"] else []) in
      propertyErrors <- collect_errors validatePropertyStructure propertyEntries ;;
      let all := ruleErrors ++ propertyErrors in
      Ok {| isValid := Nat.eqb (List.length all) 0; errors := all |}.


(** [definition.options.includes(v)] *)
Definition includes (options : list string) (v : JsValue) : bool :=
  match v with
  | JsString s => mem_string s options
  | _ => false
  end.

(** [validatePropertyValue(value: unknown, definition: PropertyDefinition,
    propertyName: string): void].  A [select] or [multi_select] definition
    always has its [options] field, so ['options' in definition] holds. *)
Definition validatePropertyValue (value : JsValue) (definition : PropertyDefinition)
    (propertyName : string) : Result unit :=
  if is_nullish value then Ok tt
  else
    match definition with
    | title | rich_text =>
        throw_if (negb (typeof_is value "string"))
          (PropertyValidationError propertyName value "string")
    | email =>
        match value with
        | JsString s =>
            throw_if (negb (isValidEmail s))
              (PropertyValidationError propertyName value "valid email address")
        | _ => Throw (PropertyValidationError propertyName value "string")
        end
    | url =>
        match value with
        | JsString s =>
            throw_if (negb (isValidURL s))
              (PropertyValidationError propertyName value "valid URL")
        | _ => Throw (PropertyValidationError propertyName value "string")
        end
    | number _ =>
        match value with
        | JsNumber x =>
            throw_if (isNaN x) (PropertyValidationError propertyName value "number")
        | _ => Throw (PropertyValidationError propertyName value "number")
        end
    | checkbox =>
        throw_if (negb (typeof_is value "boolean"))
          (PropertyValidationError propertyName value "boolean")
    | date =>
        throw_if (negb (instanceof_Date value))
          (PropertyValidationError propertyName value "Date")
    | select options =>
        throw_if (negb (typeof_is value "string"))
          (PropertyValidationError propertyName value "string") ;;;
        throw_if (negb (includes options value))
          (SelectionValidationError propertyName value options)
    | multi_select options =>
        match value with
        | JsArray items =>
            throw_if (negb (forallb (fun v => typeof_is v "string") items))
              (PropertyValidationError propertyName value "string[]") ;;;
            let invalidValues := filter (fun v => negb (includes options v)) items in
            match invalidValues with
            | first :: _ =>
                Throw (SelectionValidationError propertyName first options)
            | [] => Ok tt
            end
        | _ => Throw (PropertyValidationError propertyName value "string[]")
        end
    | people =>
        match value with
        | JsArray items =>
            throw_if (negb (forallb isValidNotionUser items))
              (PropertyValidationError propertyName value
                 "array of valid NotionUser objects")
        | _ => Throw (PropertyValidationError propertyName value "NotionUser[]")
        end
    end.

End Platform.

(* ------------------------------------------------------------------ *)
(** ** The valibot combinators used by [schema/validation.ts]

    valibot is a dependency of the repository.  Its schemas are modelled by
    their documented contract: [parse] returns when the input conforms to
    the schema and throws a [ValiError] otherwise; an [object] schema
    ignores unknown keys; a [record] validates its own entries but for
    the keys [__proto__], [prototype] and [constructor], which it passes
    over and leaves out of its output; the actions of a [pipe] run on the
    output of its first schema, once that schema has accepted the input.
    The callers use only whether [parse] throws. *)

Module v.

Inductive action : Type :=
| check (requirement : JsValue -> bool) (message : String.string)
| minLength (n : nat) (message : String.string)
| maxLength (n : nat) (message : String.string)
| regex (test : String.string -> bool) (message : String.string).

Inductive t : Type :=
| string
| literal (value : String.string)
| picklist (options : list String.string)
| optional (wrapped : t)
| array (item : t)
| object (entries : list (String.string * t))
| variant (key : String.string) (options : list t)
| record (key value : t)
| pipe (root : t) (actions : list action).

Definition run_action (a : action) (input : JsValue) : bool :=
  match a, input with
  | check requirement _, _ => requirement input
  | minLength n _, JsString s => (n <=? String.length s)%nat
  | maxLength n _, JsString s => (String.length s <=? n)%nat
  | regex test _, JsString s => test s
  | _, _ => false
  end.

(** The entries a [record] validates and puts in its output. *)
Definition record_entries (input : JsValue) : list (String.string * JsValue) :=
  filter (fun entry => negb (mem_string (fst entry) special_keys))
    (Object_entries input).

(** The output of a schema on an input it accepts, as the checks of the
    source read it.  A [record] gives an object with the entries it
    validated.  The other schemas of the source give a string or an array
    of strings as it is, or a copy of an object with its declared keys,
    [type] among them; they are modelled by the input. *)
Fixpoint output (schema : t) (input : JsValue) {struct schema} : JsValue :=
  match schema with
  | record _ _ => JsObject (record_entries input)
  | pipe root _ => output root input
  | _ => input
  end.

(** Whether the schema accepts the input (no issue is reported). *)
Fixpoint accepts (schema : t) (input : JsValue) {struct schema} : bool :=
  match schema with
  | string => typeof_is input "string"
  | literal value => is_string_lit input value
  | picklist options =>
      match input with
      | JsString s => mem_string s options
      | _ => false
      end
  | optional wrapped =>
      match input with
      | JsUndefined => true
      | _ => accepts wrapped input
      end
  | array item =>
      match input with
      | JsArray items => forallb (accepts item) items
      | _ => false
      end
  | object entries =>
      is_non_null_object input
      && forallb (fun entry => accepts (snd entry) (js_get input (fst entry))) entries
  | variant _ options =>
      is_non_null_object input && existsb (fun option => accepts option input) options
  | record key value =>
      is_non_null_object input
      && forallb (fun entry =>
                    accepts key (JsString (fst entry)) && accepts value (snd entry))
           (record_entries input)
  | pipe root actions =>
      accepts root input
      && forallb (fun a => run_action a (output root input)) actions
  end.

(** What a call of [v.parse] does. *)
Inductive Parsed : Type :=
| Output
| ValiError.

Definition parse (schema : t) (input : JsValue) : Parsed :=
  if accepts schema input then Output else ValiError.

End v.

(* ------------------------------------------------------------------ *)
(** ** The valibot schemas ([schema/validation.ts]) *)

(** [options.length] and [Object.keys(properties).length] *)
Definition js_length (x : JsValue) : nat :=
  match x with
  | JsArray items => List.length items
  | _ => 0
  end.

(** [(options) => options.length > 0] *)
Definition options_not_empty (options : JsValue) : bool :=
  (0 <? js_length options)%nat.

(** [(options) => new Set(options).size === options.length], on an array
    of strings. *)
Definition options_unique (options : JsValue) : bool :=
  match options with
  | JsArray items => Nat.eqb (Set_size (strings_of items)) (List.length items)
  | _ => false
  end.

Definition propertyTypeSchema : v.t := v.picklist validTypes.

Definition propertyDefinitionSchema : v.t :=
  v.variant "type"
    [ v.object [("type", v.literal "title")];
      v.object [("type", v.literal "rich_text")];
      v.object [("type", v.literal "number");
                ("format", v.optional (v.picklist ["number"; "percent"; "dollar"]))];
      v.object [("type", v.literal "checkbox")];
      v.object [("type", v.literal "date")];
      v.object [("type", v.literal "url")];
      v.object [("type", v.literal "email")];
      v.object [("type", v.literal "select");
                ("options",
                 v.pipe (v.array v.string)
                   [ v.check options_not_empty "Select options cannot be empty";
                     v.check options_unique "Select options must be unique" ])];
      v.object [("type", v.literal "multi_select");
                ("options",
                 v.pipe (v.array v.string)
                   [ v.check options_not_empty "Multi-select options cannot be empty";
                     v.check options_unique "Multi-select options must be unique" ])];
      v.object [("type", v.literal "people")] ].

(** [Object.values(properties).filter((prop) => prop.type === 'title')] *)
Definition titleProperties (props : JsValue) : list (string * JsValue) :=
  filter (fun entry => is_string_lit (js_get (snd entry) "type") "title")
    (Object_entries props).

Definition schemaDefinitionSchema : v.t :=
  v.object
    [ ("databaseId",
       v.pipe v.string
         [ v.minLength 1 "Database ID cannot be empty";
           v.regex (Regex.test_whole databaseId_pattern)
             "Database ID must be a valid UUID format" ]);
      ("properties",
       v.pipe (v.record v.string propertyDefinitionSchema)
         [ v.check (fun props => (0 <? List.length (Object_entries props))%nat)
             "Schema must have at least one property";
           v.check (fun props => (List.length (Object_entries props) <=? 20)%nat)
             "Schema cannot have more than 20 properties";
           v.check (fun props => Nat.eqb (List.length (titleProperties props)) 1)
             "Schema must have exactly one title property" ]) ].

Definition propertyNameSchema : v.t :=
  v.pipe v.string
    [ v.minLength 1 "Property name cannot be empty";
      v.maxLength 100 "Property name too long";
      v.regex (Regex.test_whole propertyName_pattern)
        (template
           [ "Property name must start with letter and contain only ";
             "letters, numbers, underscores, and spaces" ]) ].

(** [(opts) => opts.every(opt => opt.trim().length > 0)] *)
Definition options_not_blank (opts : JsValue) : bool :=
  match opts with
  | JsArray items =>
      forallb (fun opt => (0 <? String.length (trim opt))%nat) (strings_of items)
  | _ => false
  end.

Definition optionsSchema : v.t :=
  v.pipe (v.array v.string)
    [ v.check options_not_empty "Selection options cannot be empty";
      v.check options_unique "Selection options must be unique";
      v.check options_not_blank "Selection options cannot be empty strings" ].

(** The functions of [validation.ts]; two of them share their names with
    functions of [validator.ts]. *)
Module validation.

Definition validatePropertyDefinition (definition : JsValue) : v.Parsed :=
  v.parse propertyDefinitionSchema definition.

(** The validation run at schema creation. *)
Definition validateSchemaDefinition (schema : JsValue) : v.Parsed :=
  v.parse schemaDefinitionSchema schema.

Definition validatePropertyName (name : string) : v.Parsed :=
  v.parse propertyNameSchema (JsString name).

Definition validateSelectionOptions (options : JsValue) : v.Parsed :=
  v.parse optionsSchema options.

Definition isValidSchemaDefinition (value : JsValue) : bool :=
  match validateSchemaDefinition value with
  | v.Output => true
  | v.ValiError => false
  end.

Definition isValidPropertyDefinition (value : JsValue) : bool :=
  match validatePropertyDefinition value with
  | v.Output => true
  | v.ValiError => false
  end.

End validation.

(* ------------------------------------------------------------------ *)
(** ** The [TypedSchema] handle ([schema/typed-schema.ts]) *)

Record TypedSchema : Type := {
  _definition : SchemaDefinition;
  _createdAt : float64;
  _lastQueryDuration : float64
}.

(** [new TypedSchema(definition)]; [now] is what [new Date()] reads.  The
    [ValiError] of the validation is an [Error], so it is rethrown as a
    [SchemaValidationError]. *)
Definition new_TypedSchema (now : float64) (definition : SchemaDefinition)
  : Result TypedSchema :=
  match validation.validateSchemaDefinition (js_of_schema definition) with
  | v.ValiError =>
      Throw (SchemaValidationError "schema" "valid schema definition"
               (js_of_schema definition))
  | v.Output =>
      Ok {| _definition := definition;
            _createdAt := now;
            _lastQueryDuration := PrimFloat.zero |}
  end.

Definition createTypedSchema (now : float64) (definition : SchemaDefinition)
  : Result TypedSchema :=
  new_TypedSchema now definition.

Definition propertyNames (this : TypedSchema) : list string :=
  map fst (properties (_definition this)).

(** [propertyName in this._definition.properties] *)
Definition hasProperty (this : TypedSchema) (propertyName : string) : bool :=
  Record_in propertyName (properties (_definition this)).

(** [getProperty(propertyName)]: the read [properties[propertyName]] once
    [hasProperty] holds. *)
Definition getProperty (this : TypedSchema) (propertyName : string)
  : Result (Member PropertyDefinition) :=
  if negb (hasProperty this propertyName) then
    Throw (PropertyAccessError propertyName (databaseId (_definition this)))
  else Ok (Record_get (properties (_definition this)) propertyName).

(** [this.validatePropertyName(name)] *)
Definition TypedSchema_validatePropertyName (name : string) : Result unit :=
  match validation.validatePropertyName name with
  | v.ValiError =>
      Throw (SchemaValidationError "propertyName" "valid property name" (JsString name))
  | v.Output => Ok tt
  end.

Definition is_title (d : PropertyDefinition) : bool :=
  String.eqb (type_of d) "title".

Definition getTitleProperty (this : TypedSchema)
  : Result (string * PropertyDefinition) :=
  let titleEntries :=
    filter (fun entry => is_title (snd entry)) (properties (_definition this)) in
  match titleEntries with
  | [] =>
      Throw (SchemaValidationError "titleProperty" "exactly one title property"
               (JsString "none found"))
  | [entry] => Ok entry
  | _ =>
      Throw (SchemaValidationError "titleProperty" "exactly one title property"
               (JsString (template [number_of_nat (List.length titleEntries); " found"])))
  end.

Definition getPropertiesByType (this : TypedSchema) (type : string)
  : list (string * PropertyDefinition) :=
  filter (fun entry => String.eqb (type_of (snd entry)) type)
    (properties (_definition this)).

Definition _updateQueryDuration (this : TypedSchema) (duration : float64) : TypedSchema :=
  {| _definition := _definition this;
     _createdAt := _createdAt this;
     _lastQueryDuration := duration |}.

(** The closure returned by [createPropertyValidator()].  A member that
    [getProperty] read from [Object.prototype] has no [type], so the
    [switch] takes its [default] branch. *)
Definition createPropertyValidator (this : TypedSchema)
    (propertyName : string) (value : JsValue) : Result bool :=
  propDef <- getProperty this propertyName ;;
  if is_nullish value then Ok true
  else
    Ok match propDef with
       | Own title | Own rich_text | Own url | Own email =>
           typeof_is value "string"
       | Own (number _) =>
           match value with
           | JsNumber x => negb (isNaN x)
           | _ => false
           end
       | Own checkbox => typeof_is value "boolean"
       | Own date => instanceof_Date value
       | Own (select options) =>
           if typeof_is value "string" then includes options value else false
       | Own (multi_select options) =>
           match value with
           | JsArray items =>
               forallb (fun v => typeof_is v "string" && includes options v) items
           | _ => false
           end
       | Own people => Array_isArray value
       | Inherited _ | Undefined => false
       end.

(* ------------------------------------------------------------------ *)
(** ** Sample schemas *)

Definition sample_id : string := "12345678-1234-5678-9abc-123456789abc".

(** The basic user schema of the acceptance tests. *)
Definition basicUserSchema : SchemaDefinition :=
  {| databaseId := sample_id;
     properties := [("Name", title); ("Age", number None); ("Active", checkbox)] |}.

(** The schema of the contact-properties integration test. *)
Definition contactSchema : SchemaDefinition :=
  {| databaseId := sample_id;
     properties :=
       [ ("Title", title); ("Email", email); ("Website", url);
         ("DueDate", date); ("Assignees", people) ] |}.

(** A handle over a schema, were its construction to succeed at time 0. *)
Definition handle_of (definition : SchemaDefinition) : TypedSchema :=
  {| _definition := definition;
     _createdAt := PrimFloat.zero;
     _lastQueryDuration := PrimFloat.zero |}.

(** A platform for closed examples: no string parses as a URL, and the
    renderings of numbers and dates are not exercised. *)
Definition no_URL (s : string) : option string := None.
Definition no_rendering (x : float64) : string := "".

(** A schema whose number property has a [format] that is an object with
    an own [toString] field. *)
Definition schema_with_odd_format : JsValue :=
  JsObject
    [ ("databaseId", JsString sample_id);
      ("properties",
       JsObject
         [ ("Name", JsObject [("type", JsString "title")]);
           ("Price",
            JsObject [("type", JsString "number");
                      ("format", JsObject [("toString", JsNumber PrimFloat.one)])]) ]) ].

(* ------------------------------------------------------------------ *)
(** ** The rules of the specification, as predicates *)

(** The options rule enforced at creation: non-empty and duplicate-free. *)
Definition options_accepted (options : list string) : bool :=
  (0 <? List.length options)%nat && Nat.eqb (Set_size options) (List.length options).

Definition definition_accepted (d : PropertyDefinition) : bool :=
  match d with
  | select options | multi_select options => options_accepted options
  | _ => true
  end.

(** The number of [title] properties of a schema. *)
Definition titleCount (s : SchemaDefinition) : nat :=
  List.length (filter (fun entry => is_title (snd entry)) (properties s)).

(** The rules checked at creation besides the title count: the
    identifier format, the options rule, and one to twenty properties. *)
Definition creation_rules (s : SchemaDefinition) : bool :=
  (1 <=? String.length (databaseId s))%nat
  && isValidDatabaseId (databaseId s)
  && forallb (fun entry => definition_accepted (snd entry)) (properties s)
  && (0 <? List.length (properties s))%nat
  && (List.length (properties s) <=? 20)%nat.

(** The name rule of the specification: a letter, then letters, digits,
    underscores and whitespace, at most 100 characters in all. *)
Definition name_ok (name : string) : bool :=
  match name with
  | EmptyString => false
  | String c rest =>
      is_letter c && all_chars is_name_char rest && (String.length name <=? 100)%nat
  end.

(** A non-empty run of characters other than whitespace and [@]. *)
Definition email_part (s : string) : Prop :=
  s <> "" /\ all_chars is_not_space_at s = true.

(** An option is blank when nothing is left after trimming. *)
Definition is_blank (option : string) : bool :=
  Nat.eqb (String.length (trim option)) 0.

(** The variants on which the bound predicate checks only the type of the
    value. *)
Definition format_checked (d : PropertyDefinition) : bool :=
  match d with
  | email | url | people => true
  | _ => false
  end.

(** A value that is a number other than NaN. *)
Definition is_number_not_NaN (value : JsValue) : bool :=
  match value with
  | JsNumber x => negb (isNaN x)
  | _ => false
  end.

(** Whether the [properties] field is absent, falsy or not an object. *)
Definition properties_malformed (schema : JsValue) : bool :=
  negb (truthy (js_get schema "properties"))
  || negb (typeof_is (js_get schema "properties") "object").

(** A value that is a finite number. *)
Definition is_finite_number (value : JsValue) : bool :=
  match value with
  | JsNumber x => isFinite x
  | _ => false
  end.

(** The errors of the database-identifier rule of
    [validateSchemaStructure]. *)
Definition databaseId_rule (schema : JsValue) : list string :=
  let id := js_get schema "databaseId" in
  if negb (truthy id) || negb (typeof_is id "string")
  then ["Database ID is required and must be a string"]
  else match id with
       | JsString text =>
           if negb (isValidDatabaseId text)
           then ["Database ID must be a valid UUID format"]
           else []
       | _ => []
       end.

Definition properties_error : string :=
  "Properties are required and must be an object".

(** Sample schemas for the name and options rules. *)
Definition schema_with_name (name : string) : SchemaDefinition :=
  {| databaseId := sample_id; properties := [(name, title)] |}.

Definition schema_with_options (options : list string) : SchemaDefinition :=
  {| databaseId := sample_id;
     properties := [("Title", title); ("Status", select options)] |}.

(** Two titles, one of them under a key the record schema passes over. *)
Definition schema_with_two_titles : SchemaDefinition :=
  {| databaseId := sample_id;
     properties := [("Title", title); ("constructor", title)] |}.

(** One title, under a key the record schema passes over. *)
Definition schema_with_constructor_title : SchemaDefinition :=
  {| databaseId := sample_id; properties := [("constructor", title)] |}.

Definition schema_with_titles (n : nat) : SchemaDefinition :=
  {| databaseId := sample_id;
     properties :=
       ("Age", number None)
       :: map (fun i => (template ["Title"; number_of_nat i], title)) (seq 0 n) |}.

(* ------------------------------------------------------------------ *)
(** ** Type guards ([types/properties.ts], [types/inference.ts]) *)

(** [property.type === 'tag'] *)
Definition type_is (property : PropertyDefinition) (tag : string) : bool :=
  String.eqb (type_of property) tag.

Definition isBasicProperty (property : PropertyDefinition) : bool :=
  type_is property "title" || type_is property "number" || type_is property "checkbox".

Definition isTextProperty (property : PropertyDefinition) : bool :=
  type_is property "title" || type_is property "rich_text".

Definition isSelectionProperty (property : PropertyDefinition) : bool :=
  type_is property "select" || type_is property "multi_select".

Definition isContactProperty (property : PropertyDefinition) : bool :=
  type_is property "email" || type_is property "url" || type_is property "people".

Definition isDateProperty (property : PropertyDefinition) : bool :=
  type_is property "date".

Definition getPropertyCategory (property : PropertyDefinition) : string :=
  if isBasicProperty property then "basic"
  else if isTextProperty property then "text"
  else if isSelectionProperty property then "selection"
  else if isContactProperty property then "contact"
  else if isDateProperty property then "date"
  else "basic".

(** [isValidPropertyType(type: string)], with its own list of the types. *)
Definition isValidPropertyType (type : string) : bool :=
  mem_string type
    [ "title"; "rich_text"; "number"; "checkbox"; "date";
      "url"; "email"; "select"; "multi_select"; "people" ].

(** [hasSelectionOptions(definition)]; ['options' in definition] is read
    on the definition as a plain value. *)
Definition hasSelectionOptions (definition : PropertyDefinition) : bool :=
  (type_is definition "select" || type_is definition "multi_select")
  && js_in "options" (js_of_property definition).

Definition isTitleProperty (definition : PropertyDefinition) : bool :=
  type_is definition "title".

(* ------------------------------------------------------------------ *)
(** ** The other validators of [schema/validation.ts] *)

(** [v.pipe(v.string(), v.minLength(1), v.regex(...))]; [minLength] is
    given no message. *)
Definition databaseIdSchema : v.t :=
  v.pipe v.string
    [ v.minLength 1 "";
      v.regex (Regex.test_whole databaseId_pattern) "Invalid database ID format" ].

Definition validatePropertyType (type : string) : v.Parsed :=
  v.parse propertyTypeSchema (JsString type).

Definition validateDatabaseId (id : string) : v.Parsed :=
  v.parse databaseIdSchema (JsString id).

(* ------------------------------------------------------------------ *)
(** ** The performance monitor ([utils/performance.ts]) *)

(** [PerformanceMetrics] of [types/core.ts]. *)
Record PerformanceMetrics : Type := {
  schemaProcessingTime : float64;
  activeSchemaCount : float64;
  lastQueryDuration : float64
}.

(** A [Map] with string keys lists its entries in insertion order;
    [set] on a key that is present replaces the value in place. *)
Fixpoint Map_set {A : Type} (key : string) (value : A) (entries : list (string * A))
  : list (string * A) :=
  match entries with
  | [] => [(key, value)]
  | (k, a) :: rest =>
      if String.eqb k key then (k, value) :: rest
      else (k, a) :: Map_set key value rest
  end.

Module PerformanceMonitor.

(** The fields of the singleton.  The timings of an operation are an
    array held by the map: [push] and [shift] change it in place. *)
Record t : Type := {
  schemaCount : float64;
  totalProcessingTime : float64;
  lastQueryDuration : float64;
  operationTimings : list (string * list float64)
}.

(** The instance the private constructor makes. *)
Definition fresh : t :=
  {| schemaCount := PrimFloat.zero;
     totalProcessingTime := PrimFloat.zero;
     lastQueryDuration := PrimFloat.zero;
     operationTimings := [] |}.

(** [PerformanceMonitor.instance], null until the first [getInstance()]. *)
Definition instance : Type := option t.

Definition getInstance (created : instance) : t :=
  match created with
  | Some monitor => monitor
  | None => fresh
  end.

(** [this.operationTimings.get(operation)] *)
Definition timings_of (this : t) (operation : string) : option (list float64) :=
  assoc operation (operationTimings this).

Definition recordOperation (this : t) (operation : string) (duration : float64) : t :=
  let present :=
    if negb (has_own operation (operationTimings this))
    then Map_set operation [] (operationTimings this)
    else operationTimings this in
  let timings := match assoc operation present with Some l => l | None => [] end in
  let pushed := timings ++ [duration] in
  let kept := if (100 <? List.length pushed)%nat then tl pushed else pushed in
  {| schemaCount := schemaCount this;
     totalProcessingTime := totalProcessingTime this;
     lastQueryDuration := lastQueryDuration this;
     operationTimings := Map_set operation kept present |}.

Definition recordSchemaCreation (this : t) (duration : float64) : t :=
  recordOperation
    {| schemaCount := PrimFloat.add (schemaCount this) PrimFloat.one;
       totalProcessingTime := PrimFloat.add (totalProcessingTime this) duration;
       lastQueryDuration := lastQueryDuration this;
       operationTimings := operationTimings this |}
    "schema_creation" duration.

Definition recordQueryExecution (this : t) (duration : float64) : t :=
  recordOperation
    {| schemaCount := schemaCount this;
       totalProcessingTime := totalProcessingTime this;
       lastQueryDuration := duration;
       operationTimings := operationTimings this |}
    "query_execution" duration.

Definition recordPropertyValidation (this : t) (duration : float64) : t :=
  recordOperation this "property_validation" duration.

Definition recordTypeInference (this : t) (duration : float64) : t :=
  recordOperation this "type_inference" duration.

Definition getAverageProcessingTime (this : t) : float64 :=
  if PrimFloat.ltb PrimFloat.zero (schemaCount this)
  then PrimFloat.div (totalProcessingTime this) (schemaCount this)
  else PrimFloat.zero.

Definition getMetrics (this : t) : PerformanceMetrics :=
  Build_PerformanceMetrics
    (getAverageProcessingTime this) (schemaCount this) (lastQueryDuration this).

Definition reset (this : t) : t := fresh.

End PerformanceMonitor.

(** The [switch] of [measurePerformance] on the operation. *)
Definition record_measured (monitor : PerformanceMonitor.t) (operation : string)
    (duration : float64) : PerformanceMonitor.t :=
  if String.eqb operation "schema_creation"
  then PerformanceMonitor.recordSchemaCreation monitor duration
  else if String.eqb operation "query_execution"
  then PerformanceMonitor.recordQueryExecution monitor duration
  else if String.eqb operation "property_validation"
  then PerformanceMonitor.recordPropertyValidation monitor duration
  else if String.eqb operation "type_inference"
  then PerformanceMonitor.recordTypeInference monitor duration
  else PerformanceMonitor.recordOperation monitor operation duration.

(** [measurePerformance(operation, fn)].  The measured function runs on the
    singleton, which it may use itself, and returns or throws; [startTime]
    and [endTime] are the two readings of [performance.now()]. *)
Definition measurePerformance {T : Type} (operation : string)
    (fn : PerformanceMonitor.t -> PerformanceMonitor.t * Result T)
    (startTime endTime : float64) (created : PerformanceMonitor.instance)
  : PerformanceMonitor.instance * Result T :=
  let monitor := PerformanceMonitor.getInstance created in
  let duration := PrimFloat.sub endTime startTime in
  match fn monitor with
  | (after, Ok result) => (Some (record_measured after operation duration), Ok result)
  | (after, Throw error) =>
      (Some (PerformanceMonitor.recordOperation after
               (template [operation; "_error"]) duration),
       Throw error)
  end.

Definition getPerformanceMetrics (created : PerformanceMonitor.instance)
  : PerformanceMonitor.instance * PerformanceMetrics :=
  let monitor := PerformanceMonitor.getInstance created in
  (Some monitor, PerformanceMonitor.getMetrics monitor).

Definition resetPerformanceMetrics (created : PerformanceMonitor.instance)
  : PerformanceMonitor.instance :=
  Some (PerformanceMonitor.reset (PerformanceMonitor.getInstance created)).

(** A sequence of recording calls on a monitor. *)
Inductive Recording : Type :=
| SchemaCreation (duration : float64)
| QueryExecution (duration : float64)
| PropertyValidation (duration : float64)
| TypeInference (duration : float64)
| Operation (operation : string) (duration : float64)
| Reset.

Definition record (monitor : PerformanceMonitor.t) (call : Recording)
  : PerformanceMonitor.t :=
  match call with
  | SchemaCreation d => PerformanceMonitor.recordSchemaCreation monitor d
  | QueryExecution d => PerformanceMonitor.recordQueryExecution monitor d
  | PropertyValidation d => PerformanceMonitor.recordPropertyValidation monitor d
  | TypeInference d => PerformanceMonitor.recordTypeInference monitor d
  | Operation operation d => PerformanceMonitor.recordOperation monitor operation d
  | Reset => PerformanceMonitor.reset monitor
  end.

Definition record_all (monitor : PerformanceMonitor.t) (calls : list Recording)
  : PerformanceMonitor.t :=
  fold_left record calls monitor.

(** The measurements kept for an operation (none when it was never
    recorded). *)
Definition kept (monitor : PerformanceMonitor.t) (operation : string) : list float64 :=
  match PerformanceMonitor.timings_of monitor operation with
  | Some timings => timings
  | None => []
  end.

(** The last [n] elements of a list. *)
Definition lastn {A : Type} (n : nat) (l : list A) : list A :=
  skipn (List.length l - n) l.

(* ------------------------------------------------------------------ *)
(** ** Rules and histories the properties are stated with *)

(** The options rule, on a list of strings: one option at least, no option
    twice, none blank. *)
Definition options_ok (l : list string) : Prop :=
  l <> [] /\ NoDup l /\ (forall s, In s l -> is_blank s = false).

Definition options_rule (options : list string) : bool :=
  options_accepted options && forallb (fun s => negb (is_blank s)) options.

(** The rule on one property of a schema literal: its name, and its
    options when it has some. *)
Definition property_rule (entry : string * PropertyDefinition) : bool :=
  name_ok (fst entry)
  && match snd entry with
     | select options | multi_select options => options_rule options
     | _ => true
     end.

(** The rules on a schema literal under a configuration: the identifier,
    the bounds on the number of properties, the two rules on titles, and
    the rule on each property. *)
Definition structure_rules (config : ValidationConfig) (s : SchemaDefinition) : bool :=
  isValidDatabaseId (databaseId s)
  && (minProperties config <=? Z.of_nat (List.length (properties s)))%Z
  && (Z.of_nat (List.length (properties s)) <=? maxProperties config)%Z
  && (negb (requireTitle config) || (1 <=? titleCount s)%nat)
  && (allowMultipleTitles config || (titleCount s <=? 1)%nat)
  && forallb property_rule (properties s).

(** The errors of the options of a definition. *)
Definition option_errors (name : string) (d : PropertyDefinition) : list string :=
  match d with
  | select options | multi_select options =>
      validateSelectionOptions (JsArray (map JsString options)) name
  | _ => []
  end.

(** A schema literal none of whose properties has a key that a record
    schema passes over. *)
Definition ordinary_names (s : SchemaDefinition) : bool :=
  forallb (fun entry => negb (mem_string (fst entry) special_keys)) (properties s).

(** The schema literal as the validation of the constructor sees it:
    without the properties whose key the record schema passes over. *)
Definition validated (s : SchemaDefinition) : SchemaDefinition :=
  {| databaseId := databaseId s;
     properties :=
       filter (fun entry => negb (mem_string (fst entry) special_keys)) (properties s) |}.

(** What [push] and the conditional [shift] leave of an array. *)
Definition push_shift (timings : list float64) (duration : float64) : list float64 :=
  if (100 <? List.length (timings ++ [duration]))%nat
  then tl (timings ++ [duration]) else timings ++ [duration].

(** The operation a recording call files its duration under. *)
Definition filed_under (call : Recording) : option (string * float64) :=
  match call with
  | SchemaCreation d => Some ("schema_creation", d)
  | QueryExecution d => Some ("query_execution", d)
  | PropertyValidation d => Some ("property_validation", d)
  | TypeInference d => Some ("type_inference", d)
  | Operation operation d => Some (operation, d)
  | Reset => None
  end.

(** The durations a sequence of calls files under an operation since the
    last reset, oldest first. *)
Definition recorded (operation : string) (calls : list Recording) : list float64 :=
  fold_left
    (fun history call =>
       match filed_under call with
       | Some (name, d) => if String.eqb name operation then history ++ [d] else history
       | None => []
       end)
    calls [].

(* ================================================================== *)
(** * Properties *)

(** ** The regular-expression matcher

    Matching by derivatives decides membership in the language of the
    expression. *)

Module RegexFacts.

Import Regex.
Local Open Scope string_scope.

Lemma append_empty_r (s : string) : s ++ "" = s.
Proof. induction s as [|c s IH]; simpl; [reflexivity | now rewrite IH]. Qed.

Lemma append_eq_empty (s1 s2 : string) : s1 ++ s2 = "" -> s1 = "" /\ s2 = "".
Proof. destruct s1; simpl; [auto | discriminate]. Qed.

Lemma denotes_Void (s : string) : denotes Void s <-> False.
Proof. split; [inversion 1 | tauto]. Qed.

Lemma denotes_Eps (s : string) : denotes Eps s <-> s = "".
Proof. split; [inversion 1; reflexivity | intros ->; constructor]. Qed.

Lemma denotes_Cat (r1 r2 : t) (s : string) :
  denotes (Cat r1 r2) s <-> exists s1 s2, s = s1 ++ s2 /\ denotes r1 s1 /\ denotes r2 s2.
Proof.
  split.
  - inversion 1; subst. eauto.
  - intros [s1 [s2 [-> [H1 H2]]]]. now constructor.
Qed.

Lemma denotes_Alt (r1 r2 : t) (s : string) :
  denotes (Alt r1 r2) s <-> denotes r1 s \/ denotes r2 s.
Proof.
  split.
  - inversion 1; subst; tauto.
  - intros [H | H]; [now apply D_AltL | now apply D_AltR].
Qed.

Lemma denotes_Cat_Void_l (r : t) (s : string) : denotes (Cat Void r) s <-> False.
Proof.
  rewrite denotes_Cat. split; [|tauto].
  intros [s1 [s2 [_ [H _]]]]. now apply denotes_Void in H.
Qed.

Lemma denotes_Cat_Void_r (r : t) (s : string) : denotes (Cat r Void) s <-> False.
Proof.
  rewrite denotes_Cat. split; [|tauto].
  intros [s1 [s2 [_ [_ H]]]]. now apply denotes_Void in H.
Qed.

Lemma denotes_Cat_Eps_l (r : t) (s : string) : denotes (Cat Eps r) s <-> denotes r s.
Proof.
  rewrite denotes_Cat. split.
  - intros [s1 [s2 [-> [H1 H2]]]]. apply denotes_Eps in H1. now subst.
  - intros H. exists "", s. repeat split; [constructor | exact H].
Qed.

Lemma denotes_Cat_Eps_r (r : t) (s : string) : denotes (Cat r Eps) s <-> denotes r s.
Proof.
  rewrite denotes_Cat. split.
  - intros [s1 [s2 [-> [H1 H2]]]]. apply denotes_Eps in H2. subst.
    now rewrite append_empty_r.
  - intros H. exists s, "". repeat split; [now rewrite append_empty_r | exact H | constructor].
Qed.

Lemma cat_denotes (r1 r2 : t) (s : string) :
  denotes (cat r1 r2) s <-> denotes (Cat r1 r2) s.
Proof.
  destruct r1, r2; cbn [cat];
    first [ reflexivity
          | now rewrite denotes_Void, denotes_Cat_Void_l
          | now rewrite denotes_Void, denotes_Cat_Void_r
          | now rewrite denotes_Cat_Eps_l
          | now rewrite denotes_Cat_Eps_r ].
Qed.

Lemma alt_denotes (r1 r2 : t) (s : string) :
  denotes (alt r1 r2) s <-> denotes (Alt r1 r2) s.
Proof.
  rewrite denotes_Alt.
  destruct r1, r2; cbn [alt]; rewrite ?denotes_Alt, ?denotes_Void; tauto.
Qed.

Lemma nullable_denotes (r : t) : nullable r = true <-> denotes r "".
Proof.
  induction r as [ | | p | r1 IH1 r2 IH2 | r1 IH1 r2 IH2 | r IH]; simpl.
  - rewrite denotes_Void. split; [discriminate | tauto].
  - rewrite denotes_Eps. tauto.
  - split; [discriminate | inversion 1].
  - rewrite andb_true_iff, IH1, IH2, denotes_Cat. split.
    + intros [H1 H2]. exists "", "". auto.
    + intros [s1 [s2 [Heq [H1 H2]]]]. symmetry in Heq.
      apply append_eq_empty in Heq. destruct Heq; subst. auto.
  - rewrite orb_true_iff, IH1, IH2, denotes_Alt. tauto.
  - split; [intros _; constructor | reflexivity].
Qed.

(** A non-empty word of [r*] starts with a non-empty word of [r]. *)
Lemma denotes_Star_cons (r : t) (c : ascii) (s : string) :
  denotes (Star r) (String c s) ->
  exists s1 s2, s = s1 ++ s2 /\ denotes r (String c s1) /\ denotes (Star r) s2.
Proof.
  intros H. remember (Star r) as r' eqn:Hr. remember (String c s) as w eqn:Hw.
  revert c s Hw.
  induction H as [ | | | | | | r0 s1 s2 H1 _ H2 IH2]; try discriminate Hr.
  - discriminate.
  - injection Hr as ->. intros c s Hw.
    destruct s1 as [|c1 s1]; simpl in Hw.
    + now apply IH2.
    + injection Hw as Hc Hs. subst. eauto.
Qed.

Lemma deriv_denotes (c : ascii) (r : t) (s : string) :
  denotes (deriv c r) s <-> denotes r (String c s).
Proof.
  revert s.
  induction r as [ | | p | r1 IH1 r2 IH2 | r1 IH1 r2 IH2 | r IH]; intros s; simpl.
  - rewrite !denotes_Void. tauto.
  - rewrite denotes_Void, denotes_Eps. split; [tauto | discriminate].
  - destruct (p c) eqn:Hp.
    + rewrite denotes_Eps. split.
      * intros ->. now constructor.
      * inversion 1. reflexivity.
    + rewrite denotes_Void. split; [tauto|].
      inversion 1; subst. congruence.
  - assert (Hcat : denotes (cat (deriv c r1) r2) s <->
                   exists s1 s2, s = s1 ++ s2 /\ denotes r1 (String c s1) /\ denotes r2 s2).
    { rewrite cat_denotes, denotes_Cat. split; intros [s1 [s2 [Heq [H1 H2]]]];
        exists s1, s2; repeat split; try assumption; now apply IH1. }
    destruct (nullable r1) eqn:Hnull.
    + rewrite alt_denotes, denotes_Alt, Hcat, IH2, denotes_Cat. split.
      * intros [[s1 [s2 [-> [H1 H2]]]] | H].
        -- exists (String c s1), s2. auto.
        -- exists "", (String c s). repeat split; [|exact H].
           now apply nullable_denotes.
      * intros [s1 [s2 [Heq [H1 H2]]]]. destruct s1 as [|c1 s1]; simpl in Heq.
        -- right. now subst.
        -- injection Heq as <- ->. left. eauto.
    + rewrite Hcat, denotes_Cat. split.
      * intros [s1 [s2 [-> [H1 H2]]]]. exists (String c s1), s2. auto.
      * intros [s1 [s2 [Heq [H1 H2]]]]. destruct s1 as [|c1 s1]; simpl in Heq.
        -- apply nullable_denotes in H1. congruence.
        -- injection Heq as <- ->. eauto.
  - rewrite alt_denotes, !denotes_Alt, IH1, IH2. tauto.
  - rewrite cat_denotes, denotes_Cat. split.
    + intros [s1 [s2 [-> [H1 H2]]]]. apply IH in H1.
      change (String c (s1 ++ s2)) with (String c s1 ++ s2). now constructor.
    + intros H. apply denotes_Star_cons in H.
      destruct H as [s1 [s2 [-> [H1 H2]]]]. exists s1, s2.
      repeat split; [now apply IH | exact H2].
Qed.

Theorem matches_denotes (r : t) (s : string) :
  matches r s = true <-> denotes r s.
Proof.
  revert r. induction s as [|c s IH]; intros r; simpl.
  - apply nullable_denotes.
  - rewrite IH. apply deriv_denotes.
Qed.

Lemma denotes_Class (p : ascii -> bool) (s : string) :
  denotes (Class p) s <-> exists c, s = String c "" /\ p c = true.
Proof.
  split.
  - inversion 1; subst. eauto.
  - intros [c [-> Hp]]. now constructor.
Qed.

Lemma denotes_Star_Class (p : ascii -> bool) (s : string) :
  denotes (Star (Class p)) s <-> all_chars p s = true.
Proof.
  split.
  - intros H. remember (Star (Class p)) as r eqn:Hr.
    induction H as [ | | | | | | r0 s1 s2 H1 _ H2 IH2]; try discriminate Hr.
    + reflexivity.
    + injection Hr as ->. apply denotes_Class in H1. destruct H1 as [c [-> Hp]].
      simpl. rewrite Hp. now apply IH2.
  - induction s as [|c s IH]; simpl; intros H.
    + constructor.
    + apply andb_true_iff in H. destruct H as [Hp Hs].
      change (String c s) with (String c "" ++ s).
      constructor; [now constructor | now apply IH].
Qed.

Lemma denotes_Plus_Class (p : ascii -> bool) (s : string) :
  denotes (Plus (Class p)) s <-> s <> "" /\ all_chars p s = true.
Proof.
  unfold Plus. rewrite denotes_Cat. split.
  - intros [s1 [s2 [-> [H1 H2]]]]. apply denotes_Class in H1.
    destruct H1 as [c [-> Hp]]. apply denotes_Star_Class in H2.
    simpl. rewrite Hp, H2. split; [discriminate | reflexivity].
  - intros [Hne H]. destruct s as [|c s]; [congruence|].
    simpl in H. apply andb_true_iff in H. destruct H as [Hp Hs].
    exists (String c ""), s. repeat split.
    + now constructor.
    + now apply denotes_Star_Class.
Qed.

Lemma denotes_Repeat_Class (p : ascii -> bool) (n : nat) (s : string) :
  denotes (Repeat n (Class p)) s <-> String.length s = n /\ all_chars p s = true.
Proof.
  revert s. induction n as [|n IH]; intros s; simpl.
  - rewrite denotes_Eps. split.
    + intros ->. auto.
    + intros [H _]. destruct s; [reflexivity | discriminate].
  - rewrite denotes_Cat. split.
    + intros [s1 [s2 [-> [H1 H2]]]]. apply denotes_Class in H1.
      destruct H1 as [c [-> Hp]]. apply IH in H2. destruct H2 as [Hlen Hall].
      simpl. rewrite Hp, Hall, Hlen. auto.
    + intros [Hlen Hall]. destruct s as [|c s]; [discriminate|].
      simpl in *. apply andb_true_iff in Hall. destruct Hall as [Hp Hs].
      exists (String c ""), s. repeat split; [now constructor|].
      apply IH. split; [lia | exact Hs].
Qed.

Lemma denotes_Star_Any (s : string) : denotes (Star Any) s.
Proof. apply denotes_Star_Class. induction s; simpl; auto. Qed.


Lemma denotes_Char (c : ascii) (s : string) :
  denotes (Char c) s <-> s = String c "".
Proof.
  unfold Char. rewrite denotes_Class. split.
  - intros [c' [-> H]]. apply Ascii.eqb_eq in H. now subst.
  - intros ->. exists c. split; [reflexivity | apply Ascii.eqb_refl].
Qed.

End RegexFacts.

(** ** The patterns of the source *)

Lemma isValidDatabaseId_spec (id : string) :
  isValidDatabaseId id = true <-> String.length id = 36 /\ all_chars is_id_char id = true.
Proof.
  unfold isValidDatabaseId, Regex.test_whole, databaseId_pattern.
  rewrite RegexFacts.matches_denotes. apply RegexFacts.denotes_Repeat_Class.
Qed.

Lemma propertyName_pattern_spec (name : string) :
  Regex.test_whole propertyName_pattern name = true
  <-> exists c rest, name = String c rest /\ is_letter c = true
                     /\ all_chars is_name_char rest = true.
Proof.
  unfold Regex.test_whole, propertyName_pattern.
  rewrite RegexFacts.matches_denotes, RegexFacts.denotes_Cat. split.
  - intros [s1 [s2 [-> [H1 H2]]]]. apply RegexFacts.denotes_Class in H1.
    destruct H1 as [c [-> Hp]]. apply RegexFacts.denotes_Star_Class in H2.
    exists c, s2. auto.
  - intros [c [rest [-> [Hc Hrest]]]]. exists (String c ""), rest.
    repeat split; [now constructor | now apply RegexFacts.denotes_Star_Class].
Qed.

Lemma leading_letter_pattern_spec (name : string) :
  Regex.test_prefix leading_letter_pattern name = true
  <-> exists c rest, name = String c rest /\ is_letter c = true.
Proof.
  unfold Regex.test_prefix, leading_letter_pattern.
  rewrite RegexFacts.matches_denotes, RegexFacts.denotes_Cat. split.
  - intros [s1 [s2 [-> [H1 _]]]]. apply RegexFacts.denotes_Class in H1.
    destruct H1 as [c [-> Hp]]. exists c, s2. auto.
  - intros [c [rest [-> Hc]]]. exists (String c ""), rest.
    repeat split; [now constructor | apply RegexFacts.denotes_Star_Any].
Qed.

Lemma validatePropertyName_spec (name : string) :
  validatePropertyName name = [] <-> name_ok name = true.
Proof.
  destruct name as [|c rest]; [simpl; split; discriminate|].
  assert (Hwhole : Regex.test_whole propertyName_pattern (String c rest) = true
                   <-> is_letter c = true /\ all_chars is_name_char rest = true).
  { rewrite propertyName_pattern_spec. split.
    - intros [c' [rest' [Heq [Hc Hrest]]]]. injection Heq as <- <-. auto.
    - intros [Hc Hrest]. eauto. }
  assert (Hlead : Regex.test_prefix leading_letter_pattern (String c rest) = true
                  <-> is_letter c = true).
  { rewrite leading_letter_pattern_spec. split.
    - intros [c' [rest' [Heq Hc]]]. injection Heq as <- <-. exact Hc.
    - intros Hc. eauto. }
  unfold validatePropertyName, name_ok. cbn [String.length Nat.eqb].
  rewrite andb_true_iff, Nat.leb_le, andb_true_iff, <- Hwhole.
  destruct (100 <? S (String.length rest))%nat eqn:Hlen;
    [apply Nat.ltb_lt in Hlen | apply Nat.ltb_ge in Hlen].
  - split; [discriminate | intros [_ H]; lia].
  - destruct (Regex.test_whole propertyName_pattern (String c rest)) eqn:Ew.
    + assert (El : Regex.test_prefix leading_letter_pattern (String c rest) = true)
        by (apply Hlead, Hwhole; reflexivity).
      rewrite El. simpl. split; auto.
    + split; [|intros [H _]; discriminate H].
      destruct (Regex.test_prefix leading_letter_pattern (String c rest)); discriminate.
Qed.

Lemma isValidEmail_spec (address : string) :
  isValidEmail address = true
  <-> (exists local domain tld,
          address = (local ++ "@" ++ domain ++ "." ++ tld)%string
          /\ email_part local /\ email_part domain /\ email_part tld)
      /\ (String.length address <= 254)%nat.
Proof.
  unfold isValidEmail, Regex.test_whole, emailRegex, email_part.
  rewrite andb_true_iff, Nat.leb_le, RegexFacts.matches_denotes.
  apply and_iff_compat_r.
  split.
  - intros H.
    apply RegexFacts.denotes_Cat in H. destruct H as [local [r1 [-> [Hlocal H]]]].
    apply RegexFacts.denotes_Cat in H. destruct H as [at_ [r2 [-> [Hat H]]]].
    apply RegexFacts.denotes_Cat in H. destruct H as [domain [r3 [-> [Hdomain H]]]].
    apply RegexFacts.denotes_Cat in H. destruct H as [dot [tld [-> [Hdot Htld]]]].
    apply RegexFacts.denotes_Char in Hat, Hdot. subst.
    apply RegexFacts.denotes_Plus_Class in Hlocal, Hdomain, Htld.
    exists local, domain, tld. auto.
  - intros [local [domain [tld [-> [Hlocal [Hdomain Htld]]]]]].
    apply RegexFacts.denotes_Plus_Class in Hlocal, Hdomain, Htld.
    apply Regex.D_Cat; [exact Hlocal|].
    apply (@Regex.D_Cat (Regex.Char "@") _ "@" _); [now apply RegexFacts.denotes_Char|].
    apply Regex.D_Cat; [exact Hdomain|].
    apply (@Regex.D_Cat (Regex.Char ".") _ "." _);
      [now apply RegexFacts.denotes_Char | exact Htld].
Qed.

(** ** The model against the repository's acceptance tests *)

Example end_to_end_scenario :
  new_TypedSchema PrimFloat.zero basicUserSchema = Ok (handle_of basicUserSchema)
  /\ propertyNames (handle_of basicUserSchema) = ["Name"; "Age"; "Active"]
  /\ createPropertyValidator (handle_of basicUserSchema) "Age" (JsNumber 30%float) = Ok true
  /\ createPropertyValidator (handle_of basicUserSchema) "Age" (JsString "thirty") = Ok false
  /\ map fst (getPropertiesByType (handle_of basicUserSchema) "title") = ["Name"].
Proof. repeat split; reflexivity. Qed.

Example email_boundary_scenario :
  isValidEmail "not-an-email" = false /\ isValidEmail "user@example.com" = true.
Proof. split; vm_compute; reflexivity. Qed.

Example name_format_scenario :
  validatePropertyName "Valid_Name 2" = []
  /\ validatePropertyName (repeat_string "a" 100) = []
  /\ validatePropertyName (repeat_string "a" 101)
     = ["Property name cannot exceed 100 characters"]
  /\ validatePropertyName "123Bad"
     = ["Property name must start with a letter";
        "Property name can only contain letters, numbers, underscores, and spaces"].
Proof. repeat split; vm_compute; reflexivity. Qed.

Example structure_accepts_basic_schema :
  validateSchemaStructure no_rendering no_rendering (js_of_schema basicUserSchema)
    DEFAULT_VALIDATION_CONFIG
  = Ok {| isValid := true; errors := [] |}.
Proof. vm_compute. reflexivity. Qed.

(** The string conversion of an object with an own [toString] field
    throws, and the [TypeError] escapes the structural check. *)
Example structure_check_can_throw :
  validateSchemaStructure no_rendering no_rendering schema_with_odd_format
    DEFAULT_VALIDATION_CONFIG
  = Throw TypeError.
Proof. vm_compute. reflexivity. Qed.

Example selection_options_scenarios :
  validateSelectionOptions (JsArray []) "Status"
  = ["Property 'Status': Selection options cannot be empty"]
  /\ validateSelectionOptions
       (JsArray [JsString "Valid"; JsString ""; JsString "   "; JsString "Also Valid"])
       "Status"
     = ["Property 'Status': Options cannot be empty strings"]
  /\ validateSelectionOptions
       (JsArray [JsString "Option1"; JsString "Option2"; JsString "Option1"]) "Status"
     = ["Property 'Status': Options must be unique"].
Proof. repeat split; vm_compute; reflexivity. Qed.

Example multi_select_scenario :
  validatePropertyValue no_URL
    (JsArray [JsString "Bug"; JsString "Oops"; JsString "Feature"])
    (multi_select ["Bug"; "Feature"]) "Tags"
  = Throw (SelectionValidationError "Tags" (JsString "Oops") ["Bug"; "Feature"]).
Proof. vm_compute. reflexivity. Qed.

(** ** Lists of strings *)

Lemma mem_string_In (s : string) (l : list string) :
  mem_string s l = true <-> In s l.
Proof.
  unfold mem_string. rewrite existsb_exists. split.
  - intros [x [Hin Heq]]. apply String.eqb_eq in Heq. now subst.
  - intros Hin. exists s. split; [exact Hin | apply String.eqb_refl].
Qed.

Lemma strings_of_map (l : list string) : strings_of (map JsString l) = l.
Proof. induction l as [|s l IH]; simpl; [reflexivity | now rewrite IH]. Qed.

Lemma all_strings_map (l : list string) :
  forallb (fun x => typeof_is x "string") (map JsString l) = true.
Proof. induction l as [|s l IH]; simpl; [reflexivity | exact IH]. Qed.

Lemma nodup_length_le (l : list string) :
  (List.length (nodup string_dec l) <= List.length l)%nat.
Proof.
  induction l as [|a l IH]; simpl; [lia|].
  destruct (in_dec string_dec a l); simpl; lia.
Qed.

(** [new Set(l).size === l.length] says that [l] has no duplicate. *)
Lemma Set_size_NoDup (l : list string) :
  Nat.eqb (Set_size l) (List.length l) = true <-> NoDup l.
Proof.
  unfold Set_size. rewrite Nat.eqb_eq. split.
  - induction l as [|a l IH]; simpl; intros H; [constructor|].
    destruct (in_dec string_dec a l) as [Hin|Hnin].
    + pose proof (nodup_length_le l). lia.
    + simpl in H. constructor; [exact Hnin | apply IH; lia].
  - intros H. now rewrite (nodup_fixed_point string_dec H).
Qed.

Lemma options_accepted_spec (options : list string) :
  options_accepted options = true <-> options <> [] /\ NoDup options.
Proof.
  unfold options_accepted. rewrite andb_true_iff, Set_size_NoDup, Nat.ltb_lt.
  destruct options; simpl; split; intros [H1 H2]; split;
    try assumption; try lia; try discriminate; congruence.
Qed.

(** ** Own fields and the [in] operator *)

Lemma assoc_In {A : Type} (key : string) (fields : list (string * A)) :
  In key (map fst fields) -> exists a, assoc key fields = Some a.
Proof.
  induction fields as [|[k a] fields IH]; simpl; [tauto|].
  intros [Heq | Hin].
  - subst. rewrite String.eqb_refl. eauto.
  - destruct (String.eqb k key); eauto.
Qed.

Lemma assoc_Some_In {A : Type} (key : string) (fields : list (string * A)) (a : A) :
  assoc key fields = Some a -> In (key, a) fields.
Proof.
  induction fields as [|[k b] fields IH]; simpl; [discriminate|].
  destruct (String.eqb k key) eqn:E.
  - apply String.eqb_eq in E. intros [= ->]. left. now subst.
  - intros H. right. now apply IH.
Qed.

Lemma Record_in_own {A : Type} (key : string) (fields : list (string * A)) (a : A) :
  assoc key fields = Some a -> Record_in key fields = true.
Proof. intros H. unfold Record_in, has_own. now rewrite H. Qed.

Lemma Record_get_own {A : Type} (key : string) (fields : list (string * A)) (a : A) :
  assoc key fields = Some a -> Record_get fields key = Own a.
Proof. intros H. unfold Record_get. now rewrite H. Qed.

(** ** What the constructor accepts *)

Lemma accepts_js_of_property (d : PropertyDefinition) :
  v.accepts propertyDefinitionSchema (js_of_property d) = definition_accepted d.
Proof.
  destruct d as [ | | [[]|] | | | | | options | options | ]; try reflexivity;
    cbn; rewrite all_strings_map, strings_of_map, length_map;
    unfold options_accepted; destruct options; simpl; [reflexivity| |reflexivity|];
    now rewrite !andb_true_r, orb_false_r.
Qed.

Lemma record_entries_accepted (props : list (string * PropertyDefinition)) :
  forallb (fun entry : string * JsValue =>
             typeof_is (JsString (fst entry)) "string"
             && v.accepts propertyDefinitionSchema (snd entry))
    (map (fun entry => (fst entry, js_of_property (snd entry))) props)
  = forallb (fun entry => definition_accepted (snd entry)) props.
Proof.
  induction props as [|[name d] props IH]; [reflexivity|].
  cbn [map forallb fst snd]. rewrite IH, accepts_js_of_property. reflexivity.
Qed.

Lemma js_type_of_property (d : PropertyDefinition) :
  js_get (js_of_property d) "type" = JsString (type_of d).
Proof. destruct d as [ | | [f|] | | | | | o | o | ]; reflexivity. Qed.

Lemma titleProperties_length (props : list (string * PropertyDefinition)) :
  List.length (titleProperties (js_of_properties props))
  = List.length (filter (fun entry => is_title (snd entry)) props).
Proof.
  unfold titleProperties, js_of_properties. cbn [Object_entries].
  induction props as [|[name d] props IH]; [reflexivity|].
  cbn [map filter fst snd]. rewrite js_type_of_property.
  unfold is_title at 1. cbn [is_string_lit snd].
  destruct (String.eqb (type_of d) "title"); cbn [List.length]; now rewrite IH.
Qed.

(** The entries of a typed literal that the record schema validates. *)
Lemma record_entries_typed (props : list (string * PropertyDefinition)) :
  v.record_entries (js_of_properties props)
  = map (fun entry => (fst entry, js_of_property (snd entry)))
      (filter (fun entry => negb (mem_string (fst entry) special_keys)) props).
Proof.
  unfold v.record_entries, js_of_properties. cbn [Object_entries].
  induction props as [|[name d] props IH]; [reflexivity|].
  cbn [map filter fst snd].
  destruct (negb (mem_string name special_keys)); cbn [map fst snd]; now rewrite IH.
Qed.

Lemma filter_all {A : Type} (f : A -> bool) (l : list A) :
  forallb f l = true -> filter f l = l.
Proof.
  induction l as [|a l IH]; [reflexivity|]. cbn [forallb filter].
  intros H. apply andb_true_iff in H. destruct H as [Ha Hl].
  rewrite Ha, (IH Hl). reflexivity.
Qed.

(** With ordinary names the validation sees the whole literal. *)
Lemma validated_ordinary (s : SchemaDefinition) :
  ordinary_names s = true -> validated s = s.
Proof.
  intros H. unfold validated. rewrite (filter_all _ _ H). destruct s; reflexivity.
Qed.

(** The valibot schema of a schema definition, on a typed literal: the
    rules are those of the entries the record validates. *)
Lemma accepts_schemaDefinitionSchema (s : SchemaDefinition) :
  v.accepts schemaDefinitionSchema (js_of_schema s)
  = creation_rules (validated s) && Nat.eqb (titleCount (validated s)) 1.
Proof.
  unfold schemaDefinitionSchema, js_of_schema.
  cbn [v.accepts forallb fst snd v.output].
  set (o := JsObject _).
  replace (js_get o "databaseId") with (JsString (databaseId s)) by reflexivity.
  replace (js_get o "properties") with (js_of_properties (properties s)) by reflexivity.
  subst o. cbn [v.run_action].
  rewrite record_entries_typed.
  unfold creation_rules, titleCount, validated. cbn [databaseId properties].
  set (kept := filter (fun entry : string * PropertyDefinition =>
                         negb (mem_string (fst entry) special_keys)) (properties s)).
  change (JsObject (map (fun entry : string * PropertyDefinition =>
                           (fst entry, js_of_property (snd entry))) kept))
    with (js_of_properties kept).
  rewrite titleProperties_length.
  change (Object_entries (js_of_properties kept))
    with (map (fun entry : string * PropertyDefinition =>
                 (fst entry, js_of_property (snd entry))) kept).
  rewrite record_entries_accepted, !length_map.
  unfold js_of_properties.
  change (is_non_null_object (JsObject ?l)) with true.
  change (typeof_is (JsString ?x) "string") with true.
  cbn [andb]. rewrite !andb_true_r, !andb_assoc. reflexivity.
Qed.

(** The constructor on a typed literal: it wraps the literal when the
    entries the record validates satisfy the rules. *)
Lemma new_TypedSchema_spec (now : float64) (s : SchemaDefinition) :
  new_TypedSchema now s =
  if creation_rules (validated s) && Nat.eqb (titleCount (validated s)) 1
  then Ok {| _definition := s; _createdAt := now; _lastQueryDuration := PrimFloat.zero |}
  else Throw (SchemaValidationError "schema" "valid schema definition" (js_of_schema s)).
Proof.
  unfold new_TypedSchema, validation.validateSchemaDefinition, v.parse.
  rewrite accepts_schemaDefinitionSchema.
  destruct (creation_rules (validated s) && Nat.eqb (titleCount (validated s)) 1);
    reflexivity.
Qed.

(** With ordinary names the rules are those of the literal. *)
Lemma new_TypedSchema_ordinary (now : float64) (s : SchemaDefinition) :
  ordinary_names s = true ->
  new_TypedSchema now s =
  if creation_rules s && Nat.eqb (titleCount s) 1
  then Ok {| _definition := s; _createdAt := now; _lastQueryDuration := PrimFloat.zero |}
  else Throw (SchemaValidationError "schema" "valid schema definition" (js_of_schema s)).
Proof.
  intros H. rewrite new_TypedSchema_spec, (validated_ordinary _ H). reflexivity.
Qed.

(** A constructed handle wraps the literal it was constructed from. *)
Lemma new_TypedSchema_definition (now : float64) (s : SchemaDefinition) (h : TypedSchema) :
  new_TypedSchema now s = Ok h -> _definition h = s.
Proof.
  rewrite new_TypedSchema_spec.
  destruct (creation_rules (validated s) && Nat.eqb (titleCount (validated s)) 1);
    [|discriminate].
  intros [= <-]. reflexivity.
Qed.

Lemma new_TypedSchema_accepted (now : float64) (s : SchemaDefinition) (h : TypedSchema) :
  new_TypedSchema now s = Ok h ->
  creation_rules (validated s) = true /\ titleCount (validated s) = 1.
Proof.
  rewrite new_TypedSchema_spec.
  destruct (creation_rules (validated s) && Nat.eqb (titleCount (validated s)) 1) eqn:E;
    [|discriminate].
  intros _. apply andb_true_iff in E. destruct E as [H1 H2].
  split; [exact H1 | now apply Nat.eqb_eq].
Qed.

(** The options of every selection property of a constructed handle whose
    key the record does not pass over are non-empty and duplicate-free. *)
Lemma constructed_options (now : float64) (s : SchemaDefinition) (h : TypedSchema)
    (name : string) (options : list string) :
  new_TypedSchema now s = Ok h ->
  mem_string name special_keys = false ->
  In (name, select options) (properties s) \/ In (name, multi_select options) (properties s) ->
  options <> [] /\ NoDup options.
Proof.
  intros Hnew Hname Hin. apply new_TypedSchema_accepted in Hnew. destruct Hnew as [Hrules _].
  unfold creation_rules in Hrules. rewrite !andb_true_iff in Hrules.
  destruct Hrules as [[[_ Hall] _] _]. rewrite forallb_forall in Hall.
  apply options_accepted_spec.
  destruct Hin as [Hin | Hin];
    (assert (Hkept : In (name, select options) (properties (validated s))
                     \/ In (name, multi_select options) (properties (validated s)))
       by (unfold validated; cbn [properties]; rewrite !filter_In; cbn [fst];
           rewrite Hname; auto));
    destruct Hkept as [Hkept | Hkept]; apply Hall in Hkept; exact Hkept.
Qed.

(** The re-check of [getTitleProperty] never fires on a handle constructed
    from a literal with ordinary names: it returns the one title
    property. *)
Lemma getTitleProperty_constructed (now : float64) (s : SchemaDefinition) (h : TypedSchema) :
  ordinary_names s = true ->
  new_TypedSchema now s = Ok h ->
  exists entry, getTitleProperty h = Ok entry
                /\ In entry (properties s) /\ is_title (snd entry) = true.
Proof.
  intros Hnames Hnew. pose proof (new_TypedSchema_definition _ _ Hnew) as Hdef.
  apply new_TypedSchema_accepted in Hnew. destruct Hnew as [_ Hcount].
  rewrite (validated_ordinary _ Hnames) in Hcount.
  unfold getTitleProperty. rewrite Hdef. unfold titleCount in Hcount.
  destruct (filter (fun entry => is_title (snd entry)) (properties s))
    as [|entry [|other rest]] eqn:Hfilter; try discriminate Hcount.
  exists entry. split; [reflexivity|].
  assert (Hin : In entry (filter (fun entry => is_title (snd entry)) (properties s)))
    by (rewrite Hfilter; now left).
  apply filter_In in Hin. exact Hin.
Qed.

(** ** Construction *)

(** C3: the constructor does not count the titles of the literal.  The
    record schema passes over the key [constructor], so that a literal
    with the two titles [Title] and [constructor] is accepted, although
    [getTitleProperty] of the handle then throws and
    [validateSchemaStructure] reports the second title; and a literal
    whose one title is named [constructor] is rejected, although
    [validateSchemaStructure] finds it valid.  On a literal with ordinary
    names the rule holds, as on the literals with no title and with the
    two titles [Title0] and [Title1], which are rejected, and on the
    basic user schema, which is accepted: with no title or with two or
    more the constructor throws [SchemaValidationError], and with exactly
    one, the other creation rules satisfied, it returns the handle over
    the literal. *)
Theorem construction_miscounts_titles :
  titleCount schema_with_two_titles = 2
  /\ new_TypedSchema PrimFloat.zero schema_with_two_titles
     = Ok (handle_of schema_with_two_titles)
  /\ getTitleProperty (handle_of schema_with_two_titles)
     = Throw (SchemaValidationError "titleProperty" "exactly one title property"
                (JsString "2 found"))
  /\ validateSchemaStructure no_rendering no_rendering
       (js_of_schema schema_with_two_titles) DEFAULT_VALIDATION_CONFIG
     = Ok {| isValid := false;
             errors := ["Schema cannot have multiple title properties"] |}
  /\ titleCount schema_with_constructor_title = 1
  /\ creation_rules schema_with_constructor_title = true
  /\ new_TypedSchema PrimFloat.zero schema_with_constructor_title
     = Throw (SchemaValidationError "schema" "valid schema definition"
                (js_of_schema schema_with_constructor_title))
  /\ validateSchemaStructure no_rendering no_rendering
       (js_of_schema schema_with_constructor_title) DEFAULT_VALIDATION_CONFIG
     = Ok {| isValid := true; errors := [] |}
  /\ new_TypedSchema PrimFloat.zero (schema_with_titles 0)
     = Throw (SchemaValidationError "schema" "valid schema definition"
                (js_of_schema (schema_with_titles 0)))
  /\ new_TypedSchema PrimFloat.zero (schema_with_titles 2)
     = Throw (SchemaValidationError "schema" "valid schema definition"
                (js_of_schema (schema_with_titles 2)))
  /\ new_TypedSchema PrimFloat.zero basicUserSchema = Ok (handle_of basicUserSchema)
  /\ (forall (now : float64) (definition : SchemaDefinition),
         ordinary_names definition = true ->
         (titleCount definition <> 1 ->
          new_TypedSchema now definition
          = Throw (SchemaValidationError "schema" "valid schema definition"
                     (js_of_schema definition)))
         /\ (titleCount definition = 1 ->
             creation_rules definition = true ->
             new_TypedSchema now definition
             = Ok {| _definition := definition;
                     _createdAt := now;
                     _lastQueryDuration := PrimFloat.zero |})).
Proof.
  repeat match goal with |- _ /\ _ => split end; try (vm_compute; reflexivity).
  intros now definition Hnames. rewrite (new_TypedSchema_ordinary now _ Hnames). split.
  - intros Hcount. apply Nat.eqb_neq in Hcount. rewrite Hcount, andb_false_r.
    reflexivity.
  - intros Hcount Hrules. rewrite Hrules, Hcount. reflexivity.
Qed.

(** The constructor accepts a schema whose title property has any name
    but the three keys the record passes over. *)
Lemma construction_accepts_any_name (now : float64) (name : string) :
  mem_string name special_keys = false ->
  new_TypedSchema now (schema_with_name name)
  = Ok {| _definition := schema_with_name name;
          _createdAt := now;
          _lastQueryDuration := PrimFloat.zero |}.
Proof.
  intros Hname. rewrite new_TypedSchema_ordinary
    by (unfold ordinary_names, schema_with_name; cbn [properties forallb fst];
        now rewrite Hname).
  replace (creation_rules (schema_with_name name)
           && Nat.eqb (titleCount (schema_with_name name)) 1)
    with true by (vm_compute; reflexivity).
  reflexivity.
Qed.

(** The constructor accepts a [select] property exactly when its options
    are non-empty and duplicate-free. *)
Lemma construction_checks_options (now : float64) (options : list string) :
  returns (new_TypedSchema now (schema_with_options options)) = options_accepted options.
Proof.
  rewrite new_TypedSchema_ordinary by reflexivity.
  unfold creation_rules, titleCount, schema_with_options.
  cbn [databaseId properties forallb snd definition_accepted].
  replace (isValidDatabaseId sample_id) with true by (vm_compute; reflexivity).
  destruct (options_accepted options); reflexivity.
Qed.

(** C2: the constructor does not enforce the property-name rules.  A
    schema whose only property is named ["123Bad"], or has a name of 101
    characters, is accepted (as is any other name but the three keys the
    record schema passes over), although
    [validatePropertyName], [validateSchemaStructure] and
    [propertyNameSchema] reject such names; ["Valid_Name 2"] is accepted
    by all of them. *)
Theorem construction_accepts_invalid_names :
  new_TypedSchema PrimFloat.zero (schema_with_name "123Bad")
  = Ok (handle_of (schema_with_name "123Bad"))
  /\ new_TypedSchema PrimFloat.zero (schema_with_name (repeat_string "a" 101))
     = Ok (handle_of (schema_with_name (repeat_string "a" 101)))
  /\ String.length (repeat_string "a" 101) = 101
  /\ validatePropertyName "123Bad"
     = ["Property name must start with a letter";
        "Property name can only contain letters, numbers, underscores, and spaces"]
  /\ validatePropertyName (repeat_string "a" 101)
     = ["Property name cannot exceed 100 characters"]
  /\ validateSchemaStructure no_rendering no_rendering
       (js_of_schema (schema_with_name "123Bad")) DEFAULT_VALIDATION_CONFIG
     = Ok {| isValid := false;
             errors :=
               ["Property name must start with a letter";
                "Property name can only contain letters, numbers, underscores, and spaces"] |}
  /\ validateSchemaStructure no_rendering no_rendering
       (js_of_schema (schema_with_name (repeat_string "a" 101)))
       DEFAULT_VALIDATION_CONFIG
     = Ok {| isValid := false;
             errors := ["Property name cannot exceed 100 characters"] |}
  /\ validation.validatePropertyName "123Bad" = v.ValiError
  /\ validation.validatePropertyName (repeat_string "a" 101) = v.ValiError
  /\ validatePropertyName "Valid_Name 2" = []
  /\ new_TypedSchema PrimFloat.zero (schema_with_name "Valid_Name 2")
     = Ok (handle_of (schema_with_name "Valid_Name 2")).
Proof.
  repeat split; try apply construction_accepts_any_name; vm_compute; reflexivity.
Qed.

(** C4: the constructor rejects empty and duplicated options but not blank
    ones.  A [select] property whose only option is one space is accepted,
    although both [validateSelectionOptions] functions reject that list. *)
Theorem construction_accepts_blank_options :
  is_blank " " = true
  /\ new_TypedSchema PrimFloat.zero (schema_with_options [" "])
     = Ok (handle_of (schema_with_options [" "]))
  /\ validateSelectionOptions (JsArray [JsString " "]) "Status"
     = ["Property 'Status': Options cannot be empty strings"]
  /\ validation.validateSelectionOptions (JsArray [JsString " "]) = v.ValiError
  /\ returns (new_TypedSchema PrimFloat.zero (schema_with_options [])) = false
  /\ returns (new_TypedSchema PrimFloat.zero (schema_with_options ["Todo"; "Done"; "Todo"]))
     = false.
Proof.
  repeat split; try (rewrite construction_checks_options); vm_compute; reflexivity.
Qed.

(** ** Property access *)

Lemma getProperty_own (h : TypedSchema) (name : string) (d : PropertyDefinition) :
  assoc name (properties (_definition h)) = Some d ->
  hasProperty h name = true /\ getProperty h name = Ok (Own d).
Proof.
  intros H. unfold getProperty, hasProperty.
  rewrite (Record_in_own _ _ H), (Record_get_own _ _ H). split; reflexivity.
Qed.

(** A name that is neither a property of the schema nor a member of
    [Object.prototype] is reported as missing. *)
Lemma getProperty_absent (h : TypedSchema) (name : string) :
  has_own name (properties (_definition h)) = false ->
  mem_string name Object_prototype_keys = false ->
  hasProperty h name = false
  /\ getProperty h name = Throw (PropertyAccessError name (databaseId (_definition h))).
Proof.
  intros Hown Hproto. unfold getProperty, hasProperty, Record_in.
  rewrite Hown, Hproto. split; reflexivity.
Qed.

(** A name inherited from [Object.prototype] is found by [in]. *)
Lemma getProperty_inherited (h : TypedSchema) (name : string) :
  has_own name (properties (_definition h)) = false ->
  mem_string name Object_prototype_keys = true ->
  hasProperty h name = true /\ getProperty h name = Ok (Inherited name).
Proof.
  intros Hown Hproto. unfold getProperty, hasProperty, Record_in, Record_get, has_own in *.
  rewrite Hproto, orb_true_r.
  destruct (assoc name (properties (_definition h))); [discriminate|].
  split; reflexivity.
Qed.

(** C9: on the handle of the basic user schema, which has no property
    named ["toString"], [hasProperty("toString")] is true and
    [getProperty("toString")] returns the member inherited from
    [Object.prototype] instead of throwing; a name such as ["Missing"]
    throws [PropertyAccessError] with the name and the database id, and a
    present name yields the stored definition. *)
Theorem property_access_inherited_name :
  new_TypedSchema PrimFloat.zero basicUserSchema = Ok (handle_of basicUserSchema)
  /\ propertyNames (handle_of basicUserSchema) = ["Name"; "Age"; "Active"]
  /\ hasProperty (handle_of basicUserSchema) "toString" = true
  /\ getProperty (handle_of basicUserSchema) "toString" = Ok (Inherited "toString")
  /\ hasProperty (handle_of basicUserSchema) "Missing" = false
  /\ getProperty (handle_of basicUserSchema) "Missing"
     = Throw (PropertyAccessError "Missing" sample_id)
  /\ getProperty (handle_of basicUserSchema) "Age" = Ok (Own (number None)).
Proof. repeat split; vm_compute; reflexivity. Qed.

(** ** Runtime value validation *)

Lemma includes_string (options : list string) (s : string) :
  includes options (JsString s) = true <-> In s options.
Proof. apply mem_string_In. Qed.

Lemma forallb_andb {A : Type} (f g : A -> bool) (l : list A) :
  forallb (fun x => f x && g x) l = forallb f l && forallb g l.
Proof.
  induction l as [|a l IH]; simpl; [reflexivity|].
  rewrite IH. destruct (f a), (g a), (forallb f l); reflexivity.
Qed.

(** No element is filtered out as invalid exactly when all are valid. *)
Lemma filter_invalid_nil {A : Type} (valid : A -> bool) (l : list A) :
  match filter (fun x => negb (valid x)) l with
  | [] => true
  | _ :: _ => false
  end = forallb valid l.
Proof.
  induction l as [|a l IH]; simpl; [reflexivity|].
  destruct (valid a); simpl; [exact IH | reflexivity].
Qed.

(** The first element filtered out as invalid follows a valid prefix. *)
Lemma filter_invalid_first {A : Type} (valid : A -> bool)
    (before : list A) (bad : A) (after : list A) :
  forallb valid before = true ->
  valid bad = false ->
  filter (fun x => negb (valid x)) (before ++ bad :: after)
  = bad :: filter (fun x => negb (valid x)) after.
Proof.
  intros Hbefore Hbad. induction before as [|a before IH]; simpl.
  - now rewrite Hbad.
  - simpl in Hbefore. apply andb_true_iff in Hbefore. destruct Hbefore as [Ha Hrest].
    rewrite Ha. simpl. now apply IH.
Qed.

Section ValueValidation.

Variable URL_protocol : string -> option string.

Lemma validate_nullish (value : JsValue) (definition : PropertyDefinition) (name : string) :
  is_nullish value = true -> validatePropertyValue URL_protocol value definition name = Ok tt.
Proof. intros H. unfold validatePropertyValue. now rewrite H. Qed.

(** The bound predicate on a property of the schema. *)
Lemma predicate_nullish (h : TypedSchema) (name : string) (d : PropertyDefinition)
    (value : JsValue) :
  assoc name (properties (_definition h)) = Some d ->
  is_nullish value = true ->
  createPropertyValidator h name value = Ok true.
Proof.
  intros Hown Hnull. unfold createPropertyValidator.
  destruct (getProperty_own h name Hown) as [_ ->]. simpl. now rewrite Hnull.
Qed.

(** The two surfaces agree on every variant whose rule is a type check or
    an options check. *)
Lemma validator_agrees (h : TypedSchema) (name : string) (d : PropertyDefinition)
    (value : JsValue) :
  assoc name (properties (_definition h)) = Some d ->
  format_checked d = false ->
  createPropertyValidator h name value
  = Ok (returns (validatePropertyValue URL_protocol value d name)).
Proof.
  intros Hown Hsimple. unfold createPropertyValidator.
  destruct (getProperty_own h name Hown) as [_ ->]. cbn [bind].
  unfold validatePropertyValue.
  destruct (is_nullish value) eqn:Hnull; [reflexivity|].
  destruct d; try discriminate Hsimple.
  - destruct value; reflexivity.
  - destruct value; reflexivity.
  - destruct value; try reflexivity. cbn. destruct (isNaN x); reflexivity.
  - destruct value; reflexivity.
  - destruct value; reflexivity.
  - destruct value; try reflexivity. cbn.
    destruct (mem_string s options); reflexivity.
  - destruct value; try reflexivity.
    rewrite forallb_andb.
    destruct (forallb (fun v => typeof_is v "string") items); cbn; [|reflexivity].
    rewrite <- (filter_invalid_nil (includes options) items).
    destruct (filter (fun v => negb (includes options v)) items); reflexivity.
Qed.

(** On every variant, a value that [validatePropertyValue] lets through
    satisfies the bound predicate. *)
Lemma validator_sound (h : TypedSchema) (name : string) (d : PropertyDefinition)
    (value : JsValue) :
  assoc name (properties (_definition h)) = Some d ->
  validatePropertyValue URL_protocol value d name = Ok tt ->
  createPropertyValidator h name value = Ok true.
Proof.
  intros Hown Hvalid.
  destruct (format_checked d) eqn:Hfc.
  - unfold createPropertyValidator.
    destruct (getProperty_own h name Hown) as [_ ->]. cbn [bind].
    unfold validatePropertyValue in Hvalid.
    destruct (is_nullish value); [reflexivity|].
    destruct d; try discriminate Hfc; destruct value; try discriminate Hvalid;
      reflexivity.
  - rewrite (validator_agrees h name value Hown Hfc), Hvalid. reflexivity.
Qed.

(** On an [email] property the two surfaces part on every string that is
    not an address. *)
Lemma email_surfaces_part (h : TypedSchema) (name address : string) :
  assoc name (properties (_definition h)) = Some email ->
  isValidEmail address = false ->
  createPropertyValidator h name (JsString address) = Ok true
  /\ validatePropertyValue URL_protocol (JsString address) email name
     = Throw (PropertyValidationError name (JsString address) "valid email address").
Proof.
  intros Hown Hbad. unfold createPropertyValidator, validatePropertyValue.
  destruct (getProperty_own h name Hown) as [_ ->]. cbn. rewrite Hbad.
  split; reflexivity.
Qed.

(** C5: [validatePropertyValue] returns on null and on undefined whatever
    the variant, and the bound predicate of a constructed handle is true on
    null for every property name of its schema. *)
Theorem null_is_always_valid (definition : PropertyDefinition) (name : string) :
  validatePropertyValue URL_protocol JsNull definition name = Ok tt
  /\ validatePropertyValue URL_protocol JsUndefined definition name = Ok tt
  /\ (forall (now : float64) (s : SchemaDefinition) (h : TypedSchema),
         new_TypedSchema now s = Ok h ->
         In name (propertyNames h) ->
         createPropertyValidator h name JsNull = Ok true).
Proof.
  split; [|split]; try (apply validate_nullish; reflexivity).
  intros now s h _ Hin. unfold propertyNames in Hin.
  destruct (assoc_In _ _ Hin) as [d Hd].
  now apply (predicate_nullish h name JsNull Hd).
Qed.

(** C6: on a [number] property, [validatePropertyValue] returns for a
    value that is not null or undefined exactly when it is a number other
    than NaN (the infinities included), and otherwise throws
    [PropertyValidationError] expecting ["number"]; the bound predicate of
    a constructed handle with that property gives the same answer. *)
Theorem number_rule (value : JsValue) (format : option NumberFormat) (name : string) :
  is_nullish value = false ->
  validatePropertyValue URL_protocol value (number format) name
  = (if is_number_not_NaN value then Ok tt
     else Throw (PropertyValidationError name value "number"))
  /\ (forall (now : float64) (s : SchemaDefinition) (h : TypedSchema),
         new_TypedSchema now s = Ok h ->
         assoc name (properties s) = Some (number format) ->
         createPropertyValidator h name value = Ok (is_number_not_NaN value)).
Proof.
  intros Hnull. split.
  - unfold validatePropertyValue. rewrite Hnull.
    destruct value; try reflexivity. cbn. destruct (isNaN x); reflexivity.
  - intros now s h Hnew Hown.
    rewrite <- (new_TypedSchema_definition _ _ Hnew) in Hown.
    rewrite (validator_agrees h name value Hown eq_refl).
    unfold validatePropertyValue. rewrite Hnull.
    destruct value; try reflexivity. cbn. destruct (isNaN x); reflexivity.
Qed.

(** A list with an element outside the options splits at the first such
    element. *)
Lemma first_offender (options items : list string) :
  (exists x, In x items /\ ~ In x options) ->
  exists before bad after,
    items = before ++ bad :: after
    /\ (forall s, In s before -> In s options)
    /\ ~ In bad options.
Proof.
  induction items as [|a items IH]; intros [x [Hin Hout]]; [destruct Hin|].
  destruct (mem_string a options) eqn:Ha.
  - apply mem_string_In in Ha.
    destruct Hin as [-> | Hin]; [contradiction|].
    destruct IH as [before [bad [after [-> [Hbefore Hbad]]]]]; [eauto|].
    exists (a :: before), bad, after. repeat split; [|exact Hbad].
    intros s [<- | Hs]; [exact Ha | now apply Hbefore].
  - exists [], a, items. repeat split.
    + intros s [].
    + intros Hopt. apply mem_string_In in Hopt. congruence.
Qed.

(** Elements of the options, then one outside: the latter is reported. *)
Lemma multi_select_throws_first (options before : list string) (bad : string)
    (after : list string) (name : string) :
  (forall s, In s before -> In s options) ->
  ~ In bad options ->
  validatePropertyValue URL_protocol
    (JsArray (map JsString (before ++ bad :: after))) (multi_select options) name
  = Throw (SelectionValidationError name (JsString bad) options).
Proof.
  intros Hbefore Hbad. unfold validatePropertyValue. cbn [is_nullish].
  rewrite all_strings_map. cbn [negb throw_if bind].
  rewrite map_app. cbn [map].
  rewrite filter_invalid_first.
  - reflexivity.
  - apply forallb_forall. intros x Hx. apply in_map_iff in Hx.
    destruct Hx as [s [<- Hs]]. apply includes_string. now apply Hbefore.
  - destruct (includes options (JsString bad)) eqn:E; [|reflexivity].
    apply includes_string in E. contradiction.
Qed.

(** C7: on a [multi_select] property, a list of strings with one or more
    elements outside the options makes [validatePropertyValue] throw
    [SelectionValidationError] carrying the first such element in list
    order (every element before it is an option) and the declared
    options. *)
Theorem multi_select_first_offender (options items : list string) (name : string) :
  (exists x, In x items /\ ~ In x options) ->
  exists before bad after,
    items = before ++ bad :: after
    /\ (forall s, In s before -> In s options)
    /\ ~ In bad options
    /\ validatePropertyValue URL_protocol (JsArray (map JsString items))
         (multi_select options) name
       = Throw (SelectionValidationError name (JsString bad) options).
Proof.
  intros Hsome.
  destruct (first_offender options items Hsome)
    as [before [bad [after [Hsplit [Hbefore Hbad]]]]].
  exists before, bad, after. repeat split; try assumption.
  rewrite Hsplit. now apply multi_select_throws_first.
Qed.

End ValueValidation.

(** C1: the two surfaces disagree on the handle of the contact schema.
    The bound predicate accepts the string ["invalid-email"] for the
    [email] property and the list [["string"]] for the [people] property,
    and [validatePropertyValue] throws on both; the predicate also accepts
    ["not-a-url"] for the [url] property. *)
Theorem validation_surfaces_disagree (URL_protocol : string -> option string) :
  new_TypedSchema PrimFloat.zero contactSchema = Ok (handle_of contactSchema)
  /\ createPropertyValidator (handle_of contactSchema) "Email"
       (JsString "invalid-email") = Ok true
  /\ validatePropertyValue URL_protocol (JsString "invalid-email") email "Email"
     = Throw (PropertyValidationError "Email" (JsString "invalid-email")
                "valid email address")
  /\ createPropertyValidator (handle_of contactSchema) "Assignees"
       (JsArray [JsString "string"]) = Ok true
  /\ validatePropertyValue URL_protocol (JsArray [JsString "string"]) people "Assignees"
     = Throw (PropertyValidationError "Assignees" (JsArray [JsString "string"])
                "array of valid NotionUser objects")
  /\ createPropertyValidator (handle_of contactSchema) "Website"
       (JsString "not-a-url") = Ok true.
Proof. repeat split; vm_compute; reflexivity. Qed.

(** The bound predicate looks the property up before it looks at the
    value: an absent name throws whatever the value. *)
Lemma predicate_absent (h : TypedSchema) (name : string) (value : JsValue) :
  has_own name (properties (_definition h)) = false ->
  mem_string name Object_prototype_keys = false ->
  createPropertyValidator h name value
  = Throw (PropertyAccessError name (databaseId (_definition h))).
Proof.
  intros Hown Hproto. unfold createPropertyValidator.
  destruct (getProperty_absent h name Hown Hproto) as [_ ->]. reflexivity.
Qed.

(** C10: on the handle of the basic user schema, the bound predicate
    throws [PropertyAccessError] for the name ["Missing"], also on null;
    for the name ["toString"], which the schema does not have either, it
    does not throw: it returns true on null and undefined, and false on a
    string. *)
Theorem predicate_on_unknown_name :
  has_own "Missing" (properties basicUserSchema) = false
  /\ has_own "toString" (properties basicUserSchema) = false
  /\ createPropertyValidator (handle_of basicUserSchema) "Missing" JsNull
     = Throw (PropertyAccessError "Missing" sample_id)
  /\ createPropertyValidator (handle_of basicUserSchema) "Missing" (JsString "x")
     = Throw (PropertyAccessError "Missing" sample_id)
  /\ createPropertyValidator (handle_of basicUserSchema) "toString" JsNull = Ok true
  /\ createPropertyValidator (handle_of basicUserSchema) "toString" JsUndefined = Ok true
  /\ createPropertyValidator (handle_of basicUserSchema) "toString" (JsString "x")
     = Ok false.
Proof. repeat split; vm_compute; reflexivity. Qed.

(** ** The structural validator *)

Section StructuralValidation.

Variable Number_toString : float64 -> string.
Variable Date_toString : float64 -> string.

(** An input that is not an object is reported as such, and nothing else
    is checked. *)
Lemma validateSchemaStructure_not_object (schema : JsValue) (config : ValidationConfig) :
  is_non_null_object schema = false ->
  validateSchemaStructure Number_toString Date_toString schema config
  = Ok {| isValid := false; errors := ["Schema must be a non-null object"] |}.
Proof.
  intros H. unfold validateSchemaStructure, is_non_null_object, typeof_is in *.
  destruct (truthy schema), (String.eqb (typeof schema) "object");
    try reflexivity; discriminate H.
Qed.

Lemma databaseId_rule_length (schema : JsValue) :
  (List.length (databaseId_rule schema) <= 1)%nat.
Proof.
  unfold databaseId_rule.
  destruct (negb (truthy (js_get schema "databaseId"))
            || negb (typeof_is (js_get schema "databaseId") "string")); simpl; [lia|].
  destruct (js_get schema "databaseId"); simpl; try lia.
  destruct (negb (isValidDatabaseId s)); simpl; lia.
Qed.

(** The database-identifier rule reports nothing exactly for a string of
    the identifier format. *)
Lemma databaseId_rule_nil (schema : JsValue) :
  databaseId_rule schema = []
  <-> exists id, js_get schema "databaseId" = JsString id /\ isValidDatabaseId id = true.
Proof.
  unfold databaseId_rule. split.
  - destruct (js_get schema "databaseId") as [ | | b | x | id | t | items | fields ];
      cbn; try discriminate.
    + rewrite orb_true_r. discriminate.
    + rewrite orb_true_r. discriminate.
    + destruct (negb (negb (Nat.eqb (String.length id) 0))); cbn; [discriminate|].
      destruct (isValidDatabaseId id) eqn:E; cbn; [eauto | discriminate].
  - intros [id [-> Hid]]. rewrite Hid.
    assert (Htruthy : truthy (JsString id) = true).
    { destruct id; [discriminate Hid | reflexivity]. }
    rewrite Htruthy. reflexivity.
Qed.

(** C8: for an input whose [properties] field is absent, falsy or not an
    object, [validateSchemaStructure] returns, without throwing, an
    invalid result.  When the input is a non-null object, its errors are
    those of the database-identifier rule (none or one) followed by the
    properties error, and nothing else: with a well-formed [databaseId]
    the properties error is the only one.  When the input is not a
    non-null object, the only error says so. *)
Theorem properties_short_circuit (schema : JsValue) (config : ValidationConfig) :
  properties_malformed schema = true ->
  validateSchemaStructure Number_toString Date_toString schema config
  = Ok {| isValid := false;
          errors := if is_non_null_object schema
                    then databaseId_rule schema ++ [properties_error]
                    else ["Schema must be a non-null object"] |}
  /\ (List.length (databaseId_rule schema) <= 1)%nat
  /\ (is_non_null_object schema = true ->
      databaseId_rule schema = [] ->
      validateSchemaStructure Number_toString Date_toString schema config
      = Ok {| isValid := false; errors := [properties_error] |}).
Proof.
  intros Hprops.
  assert (Heq : validateSchemaStructure Number_toString Date_toString schema config
                = Ok {| isValid := false;
                        errors := if is_non_null_object schema
                                  then databaseId_rule schema ++ [properties_error]
                                  else ["Schema must be a non-null object"] |}).
  { destruct (is_non_null_object schema) eqn:Hobj.
    - unfold is_non_null_object in Hobj.
      apply andb_true_iff in Hobj. destruct Hobj as [Htruthy Htype].
      unfold validateSchemaStructure, properties_malformed, typeof_is in *.
      rewrite Htruthy, Htype. cbn [negb orb]. rewrite Hprops. reflexivity.
    - now apply validateSchemaStructure_not_object. }
  split; [exact Heq | split; [apply databaseId_rule_length|]].
  intros Hobj Hid. rewrite Heq, Hobj, Hid. reflexivity.
Qed.

End StructuralValidation.

(** ** Instances *)

Lemma null_is_always_valid_witness :
  validatePropertyValue no_URL JsNull email "Email" = Ok tt
  /\ createPropertyValidator (handle_of contactSchema) "Email" JsNull = Ok true.
Proof.
  destruct (null_is_always_valid no_URL email "Email") as [Hnull [_ Hpred]].
  split; [exact Hnull|].
  apply (Hpred PrimFloat.zero contactSchema); [reflexivity | simpl; tauto].
Defined.

Lemma number_rule_witness :
  validatePropertyValue no_URL (JsNumber 30%float) (number None) "Age" = Ok tt
  /\ createPropertyValidator (handle_of basicUserSchema) "Age" (JsNumber 30%float)
     = Ok true.
Proof.
  destruct (number_rule no_URL (JsNumber 30%float) None "Age" eq_refl) as [Hvalue Hpred].
  split; [exact Hvalue|].
  apply (Hpred PrimFloat.zero basicUserSchema); reflexivity.
Defined.

(** C6, as the claim has it: positive infinity is not a finite number, and
    both surfaces accept it. *)
Lemma number_rule_counterexample :
  is_finite_number (JsNumber PrimFloat.infinity) = false
  /\ validatePropertyValue no_URL (JsNumber PrimFloat.infinity) (number None) "Age" = Ok tt
  /\ createPropertyValidator (handle_of basicUserSchema) "Age"
       (JsNumber PrimFloat.infinity) = Ok true.
Proof. repeat split; vm_compute; reflexivity. Qed.

Lemma multi_select_first_offender_witness :
  exists before bad after,
    ["Bug"; "Oops"; "Feature"] = before ++ bad :: after
    /\ (forall s, In s before -> In s ["Bug"; "Feature"])
    /\ ~ In bad ["Bug"; "Feature"]
    /\ validatePropertyValue no_URL
         (JsArray (map JsString ["Bug"; "Oops"; "Feature"]))
         (multi_select ["Bug"; "Feature"]) "Tags"
       = Throw (SelectionValidationError "Tags" (JsString bad) ["Bug"; "Feature"]).
Proof.
  apply (multi_select_first_offender no_URL ["Bug"; "Feature"]
           ["Bug"; "Oops"; "Feature"] "Tags").
  exists "Oops". split.
  - simpl. tauto.
  - simpl. intros [H | [H | H]]; [discriminate H | discriminate H | exact H].
Defined.

Lemma properties_short_circuit_witness :
  validateSchemaStructure no_rendering no_rendering
    (JsObject [("databaseId", JsString sample_id)]) DEFAULT_VALIDATION_CONFIG
  = Ok {| isValid := false; errors := [properties_error] |}
  /\ validateSchemaStructure no_rendering no_rendering JsNull DEFAULT_VALIDATION_CONFIG
     = Ok {| isValid := false; errors := ["Schema must be a non-null object"] |}.
Proof.
  split.
  - apply (proj1 (properties_short_circuit no_rendering no_rendering
                    (JsObject [("databaseId", JsString sample_id)])
                    DEFAULT_VALIDATION_CONFIG eq_refl)).
  - apply (proj1 (properties_short_circuit no_rendering no_rendering JsNull
                    DEFAULT_VALIDATION_CONFIG eq_refl)).
Defined.

(** C8, as the claim has it: the empty object has no [properties] field
    and no [databaseId], and two errors are reported. *)
Lemma properties_short_circuit_counterexample :
  js_get (JsObject []) "properties" = JsUndefined
  /\ validateSchemaStructure no_rendering no_rendering (JsObject [])
       DEFAULT_VALIDATION_CONFIG
     = Ok {| isValid := false;
             errors := ["Database ID is required and must be a string";
                        properties_error] |}.
Proof. split; vm_compute; reflexivity. Qed.

(* ================================================================== *)
(** * Further properties *)

(** ** Names, options and identifiers *)

Lemma valibot_name_ok (name : string) :
  validation.validatePropertyName name = v.Output <-> name_ok name = true.
Proof.
  rewrite <- validatePropertyName_spec.
  unfold validation.validatePropertyName, v.parse, propertyNameSchema.
  cbn [v.accepts v.output forallb v.run_action].
  change (typeof_is (JsString name) "string") with true. cbn [andb].
  rewrite andb_true_r.
  pose proof (validatePropertyName_spec name) as Hspec.
  unfold name_ok in Hspec.
  destruct name as [|c rest].
  - cbn. split; discriminate.
  - rewrite Hspec. cbn [String.length Nat.leb].
    destruct (Regex.test_whole propertyName_pattern (String c rest)) eqn:Hw.
    + apply propertyName_pattern_spec in Hw.
      destruct Hw as [c' [rest' [Heq [Hc Hrest]]]]. injection Heq as <- <-.
      rewrite Hc, Hrest. cbn [andb]. rewrite andb_true_r.
      destruct (String.length rest <=? 99)%nat; split; intros; try reflexivity; discriminate.
    + rewrite andb_false_r. split; [discriminate|].
      intros H. apply andb_true_iff in H. destruct H as [H _].
      apply andb_true_iff in H. destruct H as [Hc Hrest].
      assert (Regex.test_whole propertyName_pattern (String c rest) = true)
        by (apply propertyName_pattern_spec; eauto).
      congruence.
Qed.

(** X1: the three checks of a property name agree: [validatePropertyName]
    of the validator reports no error, the check of [validation.ts]
    returns, and the method of the handle returns, exactly on a name that
    starts with a letter, goes on with letters, digits, underscores and
    whitespace, and has at most 100 characters. *)
Theorem name_checks_agree (name : string) :
  (validatePropertyName name = [] <-> name_ok name = true)
  /\ (validation.validatePropertyName name = v.Output <-> validatePropertyName name = [])
  /\ (TypedSchema_validatePropertyName name = Ok tt <-> validatePropertyName name = []).
Proof.
  split; [apply validatePropertyName_spec|].
  rewrite validatePropertyName_spec, <- valibot_name_ok. split; [tauto|].
  unfold TypedSchema_validatePropertyName.
  destruct (validation.validatePropertyName name); split; intros; try reflexivity; discriminate.
Qed.

Lemma all_strings_iff (items : list JsValue) :
  forallb (fun x => typeof_is x "string") items = true
  <-> items = map JsString (strings_of items).
Proof.
  induction items as [|x items IH]; simpl; [tauto|].
  destruct x;
    try (split; [discriminate
                | intros H; destruct (strings_of items); discriminate H]).
  change (typeof_is (JsString s) "string") with true. cbn [andb map].
  rewrite IH. split; [intros <-; reflexivity | intros [= H]; exact H].
Qed.

Lemma filter_nil_forallb {A : Type} (f : A -> bool) (l : list A) :
  filter f l = [] <-> forallb (fun x => negb (f x)) l = true.
Proof.
  induction l as [|a l IH]; simpl; [tauto|].
  destruct (f a); simpl; [split; discriminate | exact IH].
Qed.

Lemma blank_filter_strings (l : list string) :
  filter (fun option => match option with
                        | JsString s => Nat.eqb (String.length (trim s)) 0
                        | _ => false
                        end) (map JsString l) = []
  <-> (forall s, In s l -> is_blank s = false).
Proof.
  rewrite filter_nil_forallb, forallb_forall. unfold is_blank. split.
  - intros H s Hs. specialize (H (JsString s) (in_map _ _ _ Hs)). cbn in H.
    now apply negb_true_iff in H.
  - intros H x Hx. apply in_map_iff in Hx. destruct Hx as [s [<- Hs]].
    apply negb_true_iff. now apply H.
Qed.

Lemma no_invalid_options (items : list JsValue) :
  filter (fun option => negb (typeof_is option "string")) items = []
  <-> forallb (fun x => typeof_is x "string") items = true.
Proof.
  induction items as [|a items IH]; simpl; [tauto|].
  destruct (typeof_is a "string"); simpl; [exact IH | split; discriminate].
Qed.

Lemma if_nil {A : Type} (b : bool) (x : A) : (if b then [x] else []) = [] <-> b = false.
Proof. destruct b; split; intros; try reflexivity; discriminate. Qed.

Lemma app_nil_iff {A : Type} (l1 l2 : list A) : l1 ++ l2 = [] <-> l1 = [] /\ l2 = [].
Proof. split; [apply app_eq_nil | intros [-> ->]; reflexivity]. Qed.

Lemma validateSelectionOptions_spec (options : JsValue) (propertyName : string) :
  validateSelectionOptions options propertyName = []
  <-> exists l, options = JsArray (map JsString l) /\ options_ok l.
Proof.
  unfold validateSelectionOptions, options_ok.
  destruct options as [ | | b | x | s | t | items | fields ];
    try (split; [discriminate | intros [l [H _]]; discriminate H]).
  rewrite !app_nil_iff, !if_nil, Nat.ltb_ge, Nat.eqb_neq, Nat.ltb_ge, negb_false_iff.
  split.
  - intros [Hne [Hstr [Hblank Hdup]]].
    assert (Hall : filter (fun option => negb (typeof_is option "string")) items = [])
      by (apply length_zero_iff_nil; lia).
    apply no_invalid_options in Hall.
    assert (Hitems : items = map JsString (strings_of items))
      by now apply all_strings_iff.
    exists (strings_of items). split; [now rewrite <- Hitems|]. split; [|split].
    + intros Hnil. rewrite Hnil in Hitems. simpl in Hitems. now subst.
    + now apply Set_size_NoDup.
    + apply blank_filter_strings. rewrite <- Hitems.
      apply length_zero_iff_nil. lia.
  - intros [l [[= ->] [Hne [Hdup Hblank]]]]. rewrite strings_of_map. repeat split.
    + rewrite length_map. destruct l; [congruence | discriminate].
    + replace (filter (fun option => negb (typeof_is option "string")) (map JsString l))
        with (@nil JsValue); [simpl; lia|].
      symmetry. apply no_invalid_options, all_strings_map.
    + apply blank_filter_strings in Hblank. rewrite Hblank. simpl. lia.
    + now apply Set_size_NoDup.
Qed.

Lemma selection_option_checks_agree (options : JsValue) (propertyName : string) :
  validation.validateSelectionOptions options = v.Output
  <-> validateSelectionOptions options propertyName = [].
Proof.
  rewrite validateSelectionOptions_spec.
  unfold validation.validateSelectionOptions, v.parse, optionsSchema, options_ok.
  cbn [v.accepts v.output forallb v.run_action].
  destruct options as [ | | b | x | s | t | items | fields ];
    try (split; [discriminate | intros [l [H _]]; discriminate H]).
  change (forallb (v.accepts v.string) items)
    with (forallb (fun x => typeof_is x "string") items).
  unfold options_not_empty, options_unique, options_not_blank, js_length.
  rewrite andb_true_r.
  match goal with |- (if ?c then _ else _) = _ <-> _ =>
    assert (Hc : c = true <-> exists l, JsArray items = JsArray (map JsString l)
                                /\ l <> [] /\ NoDup l
                                /\ (forall s, In s l -> is_blank s = false));
    [| destruct c; split; intros H; try reflexivity; try discriminate;
       [now apply Hc | destruct Hc as [_ Hc]; now apply Hc in H] ]
  end.
  rewrite !andb_true_iff, all_strings_iff, Nat.ltb_lt, forallb_forall. split.
  - intros [Hitems [Hne [Hdup Hblank]]].
    exists (strings_of items). split; [now rewrite <- Hitems|]. split; [|split].
    + intros Hnil. rewrite Hnil in Hitems. simpl in Hitems. subst. simpl in Hne. lia.
    + apply Set_size_NoDup. rewrite Hitems, length_map, strings_of_map in Hdup.
      exact Hdup.
    + intros s Hs. specialize (Hblank s Hs). unfold is_blank.
      apply Nat.ltb_lt in Hblank. apply Nat.eqb_neq. lia.
  - intros [l [[= ->] [Hne [Hdup Hblank]]]]. rewrite strings_of_map. repeat split.
    + rewrite length_map. destruct l; [congruence | simpl; lia].
    + rewrite length_map. now apply Set_size_NoDup.
    + intros s Hs. specialize (Hblank s Hs). unfold is_blank in Hblank.
      apply Nat.eqb_neq in Hblank. apply Nat.ltb_lt. lia.
Qed.

(** X2: [validateSelectionOptions] of the validator reports no error
    exactly on an array of strings with one option at least, no option
    twice and none blank, whatever the property name; the check of
    [validation.ts] returns on the same values. *)
Theorem selection_options_rule (options : JsValue) (propertyName : string) :
  (validateSelectionOptions options propertyName = []
   <-> exists l, options = JsArray (map JsString l) /\ options_ok l)
  /\ (validation.validateSelectionOptions options = v.Output
      <-> validateSelectionOptions options propertyName = []).
Proof.
  split; [apply validateSelectionOptions_spec | apply selection_option_checks_agree].
Qed.

(** X3: [isValidDatabaseId] holds exactly of the strings of 36 characters
    among [a-f], [0-9] and [-], and [validateDatabaseId] returns on the
    same strings. *)
Theorem database_id_rule (id : string) :
  (isValidDatabaseId id = true
   <-> String.length id = 36 /\ all_chars is_id_char id = true)
  /\ (validateDatabaseId id = v.Output <-> isValidDatabaseId id = true).
Proof.
  split; [apply isValidDatabaseId_spec|].
  unfold validateDatabaseId, v.parse, databaseIdSchema.
  cbn [v.accepts v.output forallb v.run_action].
  change (typeof_is (JsString id) "string") with true. cbn [andb].
  rewrite andb_true_r. fold (isValidDatabaseId id).
  destruct (isValidDatabaseId id) eqn:E.
  - apply isValidDatabaseId_spec in E. destruct E as [Hlen _].
    replace (1 <=? String.length id)%nat with true
      by (symmetry; apply Nat.leb_le; lia).
    split; reflexivity.
  - rewrite andb_false_r. split; discriminate.
Qed.

(** ** The type guards *)

(** X4: every definition satisfies one guard at least, and
    [getPropertyCategory] answers by the first guard that holds in the
    order basic, text, selection, contact, date: a [title] is a text
    property by its guard and is put in the basic category, so that
    ["text"] is the category of [rich_text] alone. *)
Theorem getPropertyCategory_guards (property : PropertyDefinition) :
  (isBasicProperty property || isTextProperty property || isSelectionProperty property
   || isContactProperty property || isDateProperty property = true)
  /\ (getPropertyCategory property = "basic" <-> isBasicProperty property = true)
  /\ (getPropertyCategory property = "text" <-> property = rich_text)
  /\ (getPropertyCategory property = "selection" <-> isSelectionProperty property = true)
  /\ (getPropertyCategory property = "contact" <-> isContactProperty property = true)
  /\ (getPropertyCategory property = "date" <-> isDateProperty property = true)
  /\ isTextProperty title = true.
Proof.
  destruct property; cbv; repeat split; intros; try reflexivity; try discriminate.
Qed.

(** X5: the lists of property types agree: [isValidPropertyType] holds
    exactly of the types of the definitions, it is the list of the
    validator's guard, and [validatePropertyType] returns exactly on it. *)
Theorem valid_types_agree (type : string) :
  (isValidPropertyType type = true <-> exists d : PropertyDefinition, type_of d = type)
  /\ mem_string type validTypes = isValidPropertyType type
  /\ isPropertyDefinition (JsObject [("type", JsString type)]) = isValidPropertyType type
  /\ (validatePropertyType type = v.Output <-> isValidPropertyType type = true).
Proof.
  split; [|split; [|split]].
  - unfold isValidPropertyType. rewrite mem_string_In. split.
    + simpl. intros H.
      repeat (destruct H as [<- | H];
              [first [ now exists title | now exists rich_text | now exists (number None)
                     | now exists checkbox | now exists date | now exists url
                     | now exists email | now exists (select []) | now exists (multi_select [])
                     | now exists people ] |]).
      destruct H.
    + intros [d <-]. destruct d; simpl; tauto.
  - reflexivity.
  - unfold isPropertyDefinition, isValidPropertyType, typeof_is.
    cbn [truthy typeof js_get assoc String.eqb negb orb].
    change (js_get (JsObject [("type", JsString type)]) "type") with (JsString type).
    cbn [truthy typeof].
    destruct type as [|c rest]; [reflexivity|]. reflexivity.
  - unfold validatePropertyType, v.parse, propertyTypeSchema. cbn [v.accepts].
    change (mem_string type validTypes) with (isValidPropertyType type).
    destruct (isValidPropertyType type); split; intros; try reflexivity; discriminate.
Qed.

Lemma is_string_lit_eq (x : JsValue) (s : string) :
  is_string_lit x s = true -> x = JsString s.
Proof.
  destruct x; try discriminate. unfold is_string_lit. intros H.
  apply String.eqb_eq in H. now subst.
Qed.

(** X6: a value that [isValidPropertyDefinition] of [validation.ts]
    accepts passes the guard [isPropertyDefinition] of the validator, and
    its [type] is a string that [isValidPropertyType] accepts. *)
Theorem valibot_guard_implies_guard (value : JsValue) :
  validation.isValidPropertyDefinition value = true ->
  isPropertyDefinition value = true
  /\ exists type, js_get value "type" = JsString type /\ isValidPropertyType type = true.
Proof.
  unfold validation.isValidPropertyDefinition, validation.validatePropertyDefinition, v.parse.
  destruct (v.accepts propertyDefinitionSchema value) eqn:H; [intros _ | discriminate].
  unfold propertyDefinitionSchema in H. cbn [v.accepts] in H.
  apply andb_true_iff in H. destruct H as [Hobj H].
  assert (Htype : exists type, js_get value "type" = JsString type
                               /\ mem_string type validTypes = true).
  { cbn [existsb v.accepts forallb fst snd] in H.
    repeat (apply orb_true_iff in H; destruct H as [H | H]);
      try discriminate H;
      rewrite !andb_true_iff in H; destruct H as [_ [H _]];
      apply is_string_lit_eq in H; eexists; (split; [exact H | reflexivity]). }
  destruct Htype as [type [Hget Hmem]].
  split; [|exists type; split; [exact Hget | exact Hmem]].
  unfold isPropertyDefinition.
  destruct value as [ | | b | x | s | t | items | fields ]; try discriminate Hget.
  rewrite Hget. destruct type; [discriminate Hmem | exact Hmem].
Qed.

Lemma valibot_guard_implies_guard_witness :
  isPropertyDefinition (js_of_property (select ["Open"; "Done"])) = true
  /\ exists type, js_get (js_of_property (select ["Open"; "Done"])) "type" = JsString type
                  /\ isValidPropertyType type = true.
Proof.
  apply (@valibot_guard_implies_guard (js_of_property (select ["Open"; "Done"]))).
  reflexivity.
Defined.

(** ** The structural validator on schema literals *)

Section Structure.

Variable Number_toString : float64 -> string.
Variable Date_toString : float64 -> string.

Lemma isPropertyDefinition_typed (d : PropertyDefinition) :
  isPropertyDefinition (js_of_property d) = true.
Proof. destruct d as [ | | [f|] | | | | | o | o | ]; reflexivity. Qed.

Lemma validatePropertyStructure_typed (name : string) (d : PropertyDefinition) :
  validatePropertyStructure Number_toString Date_toString name (js_of_property d)
  = Ok (validatePropertyName name ++ option_errors name d).
Proof.
  unfold validatePropertyStructure. rewrite isPropertyDefinition_typed, js_type_of_property.
  cbn [negb].
  destruct d as [ | | [[]|] | | | | | o | o | ]; cbn; rewrite ?app_nil_r; reflexivity.
Qed.

Lemma collect_errors_typed (props : list (string * PropertyDefinition)) :
  collect_errors (validatePropertyStructure Number_toString Date_toString)
    (map (fun entry => (fst entry, js_of_property (snd entry))) props)
  = Ok (flat_map (fun entry => validatePropertyName (fst entry)
                               ++ option_errors (fst entry) (snd entry)) props).
Proof.
  induction props as [|[name d] props IH]; [reflexivity|].
  cbn [map collect_errors fst snd flat_map].
  rewrite validatePropertyStructure_typed, IH. reflexivity.
Qed.

Lemma title_filter_typed (props : list (string * PropertyDefinition)) :
  List.length
    (filter (fun entry : string * JsValue =>
               isPropertyDefinition (snd entry)
               && is_string_lit (js_get (snd entry) "type") "title")
       (map (fun entry => (fst entry, js_of_property (snd entry))) props))
  = List.length (filter (fun entry => is_title (snd entry)) props).
Proof.
  induction props as [|[name d] props IH]; [reflexivity|].
  cbn [map filter fst snd]. rewrite isPropertyDefinition_typed, js_type_of_property.
  unfold is_title at 1. cbn [is_string_lit andb].
  destruct (String.eqb (type_of d) "title"); cbn [List.length]; now rewrite IH.
Qed.

Lemma options_rule_spec (options : list string) :
  options_rule options = true <-> options_ok options.
Proof.
  unfold options_rule, options_ok.
  rewrite andb_true_iff, options_accepted_spec, forallb_forall. split.
  - intros [[Hne Hdup] Hblank]. repeat split; try assumption.
    intros s Hs. apply negb_true_iff. now apply Hblank.
  - intros [Hne [Hdup Hblank]]. repeat split; try assumption.
    intros s Hs. apply negb_true_iff. now apply Hblank.
Qed.

Lemma map_JsString_inj (l1 l2 : list string) :
  map JsString l1 = map JsString l2 -> l1 = l2.
Proof.
  revert l2. induction l1 as [|a l1 IH]; intros [|b l2]; simpl; try discriminate.
  - reflexivity.
  - intros [= -> H]. f_equal. now apply IH.
Qed.

Lemma option_errors_nil (name : string) (d : PropertyDefinition) :
  option_errors name d = []
  <-> match d with
      | select options | multi_select options => options_rule options = true
      | _ => True
      end.
Proof.
  destruct d; cbn [option_errors]; try tauto;
    rewrite validateSelectionOptions_spec, options_rule_spec; split.
  all: try (intros [l [[= H] Hok]]; apply map_JsString_inj in H; now subst).
  all: intros Hok; eauto.
Qed.

Lemma property_errors_nil (props : list (string * PropertyDefinition)) :
  flat_map (fun entry => validatePropertyName (fst entry)
                         ++ option_errors (fst entry) (snd entry)) props = []
  <-> forallb property_rule props = true.
Proof.
  induction props as [|[name d] props IH]; [simpl; tauto|].
  cbn [flat_map forallb fst snd]. rewrite !app_nil_iff, andb_true_iff, IH.
  assert (Hhead : property_rule (name, d) = true
                  <-> validatePropertyName name = [] /\ option_errors name d = []).
  { unfold property_rule. cbn [fst snd].
    rewrite andb_true_iff, validatePropertyName_spec, option_errors_nil.
    destruct d; intuition. }
  tauto.
Qed.

Lemma isValidDatabaseId_nonempty (id : string) :
  isValidDatabaseId id = true -> truthy (JsString id) = true.
Proof. destruct id; [discriminate | reflexivity]. Qed.

Lemma structure_of_typed (config : ValidationConfig) (s : SchemaDefinition) :
  exists found,
    validateSchemaStructure Number_toString Date_toString (js_of_schema s) config
    = Ok {| isValid := structure_rules config s; errors := found |}
    /\ (structure_rules config s = true <-> found = []).
Proof.
  unfold validateSchemaStructure, js_of_schema.
  change (truthy (JsObject ?l)) with true.
  change (typeof_is (JsObject ?l) "object") with true. cbn [negb orb].
  set (o := JsObject _).
  replace (js_get o "databaseId") with (JsString (databaseId s)) by reflexivity.
  replace (js_get o "properties") with (js_of_properties (properties s)) by reflexivity.
  subst o. unfold js_of_properties at 1 2.
  change (truthy (JsObject ?l)) with true.
  change (typeof_is (JsObject ?l) "object") with true. cbn [negb orb].
  change (Object_entries (js_of_properties (properties s)))
    with (map (fun entry => (fst entry, js_of_property (snd entry))) (properties s)).
  rewrite collect_errors_typed, title_filter_typed, length_map. cbn [bind].
  fold (titleCount s).
  change (typeof_is (JsString (databaseId s)) "string") with true.
  cbn [negb orb]. rewrite orb_false_r.
  match goal with
  | |- exists found, Ok {| isValid := Nat.eqb (List.length ?all) 0; errors := ?all |} = _ /\ _ =>
      assert (Hall : all = [] <-> structure_rules config s = true)
  end.
  { rewrite !app_nil_iff, !if_nil, property_errors_nil.
    unfold structure_rules. rewrite !andb_true_iff, Z.ltb_ge, Z.ltb_ge, !Z.leb_le.
    assert (Hid : (if negb (truthy (JsString (databaseId s)))
                   then ["Database ID is required and must be a string"]
                   else if negb (isValidDatabaseId (databaseId s))
                        then ["Database ID must be a valid UUID format"]
                        else []) = []
                  <-> isValidDatabaseId (databaseId s) = true).
    { destruct (isValidDatabaseId (databaseId s)) eqn:E.
      - rewrite (isValidDatabaseId_nonempty _ E). cbn. tauto.
      - destruct (negb (truthy (JsString (databaseId s)))); cbn; split; discriminate. }
    rewrite Hid.
    assert (Hreq : requireTitle config && Nat.eqb (titleCount s) 0 = false
                   <-> negb (requireTitle config) || (1 <=? titleCount s)%nat = true).
    { destruct (requireTitle config), (titleCount s); cbn; intuition congruence. }
    assert (Hmul : negb (allowMultipleTitles config) && (1 <? titleCount s)%nat = false
                   <-> allowMultipleTitles config || (titleCount s <=? 1)%nat = true).
    { destruct (allowMultipleTitles config), (titleCount s) as [|[|n]]; cbn;
        intuition congruence. }
    rewrite Hreq, Hmul. tauto. }
  match goal with
  | |- exists found, Ok {| isValid := Nat.eqb (List.length ?all) 0; errors := ?all |} = _ /\ _ =>
      exists all
  end.
  split; [|tauto].
  f_equal. f_equal.
  match goal with |- Nat.eqb (List.length ?all) 0 = _ => destruct all eqn:E end.
  - symmetry. now apply Hall.
  - simpl. destruct (structure_rules config s); [|reflexivity].
    destruct Hall as [_ Hall]. discriminate (Hall eq_refl).
Qed.

Lemma collect_errors_throws (entries : list (string * JsValue)) (thrown : Thrown) :
  collect_errors (validatePropertyStructure Number_toString Date_toString) entries
  = Throw thrown ->
  exists name d, In (name, d) entries
                 /\ validatePropertyStructure Number_toString Date_toString name d
                    = Throw thrown.
Proof.
  induction entries as [|[name d] rest IH]; [discriminate|].
  cbn [collect_errors fst snd].
  destruct (validatePropertyStructure Number_toString Date_toString name d) as [found|e] eqn:E;
    cbn [bind].
  - destruct (collect_errors _ rest) as [more|e'] eqn:E'; cbn [bind]; [discriminate|].
    intros [= <-]. destruct (IH eq_refl) as [n [d' [Hin H]]].
    exists n, d'. split; [now right | exact H].
  - intros [= <-]. exists name, d. split; [now left | exact E].
Qed.

End Structure.

(** X7: on a schema literal, [validateSchemaStructure] returns a result
    under every configuration; the result is valid exactly when the
    identifier is well formed, the number of properties is within the
    bounds of the configuration, the title rules of the configuration
    hold, every name is well formed and every list of options has one
    option at least, no option twice and none blank; and it is valid
    exactly when no error is listed. *)
Theorem validateSchemaStructure_typed (Number_toString Date_toString : float64 -> string)
    (config : ValidationConfig) (s : SchemaDefinition) :
  exists found,
    validateSchemaStructure Number_toString Date_toString (js_of_schema s) config
    = Ok {| isValid := structure_rules config s; errors := found |}
    /\ (structure_rules config s = true <-> found = []).
Proof. apply structure_of_typed. Qed.


(** X9: what [validateSchemaStructure] throws is a [TypeError], and it
    throws only on a schema with a [number] property whose [format] is
    not one of the three formats and has no string conversion. *)
Theorem structure_check_throws (Number_toString Date_toString : float64 -> string)
    (schema : JsValue) (config : ValidationConfig) (thrown : Thrown) :
  validateSchemaStructure Number_toString Date_toString schema config = Throw thrown ->
  thrown = TypeError
  /\ exists name d,
       In (name, d) (Object_entries (js_get schema "properties"))
       /\ is_string_lit (js_get d "type") "number" = true
       /\ isValidNumberFormat (js_get d "format") = false
       /\ ToString Number_toString Date_toString (js_get d "format") = None.
Proof.
  unfold validateSchemaStructure.
  destruct (negb (truthy schema) || negb (typeof_is schema "object")); [discriminate|].
  destruct (negb (truthy (js_get schema "properties"))
            || negb (typeof_is (js_get schema "properties") "object")); [discriminate|].
  destruct (collect_errors _ (Object_entries (js_get schema "properties")))
    as [found|e] eqn:E; cbn [bind]; [discriminate|].
  intros [= <-]. apply collect_errors_throws in E. destruct E as [name [d [Hin H]]].
  unfold validatePropertyStructure in H.
  destruct (negb (isPropertyDefinition d)); [discriminate|].
  destruct (is_string_lit (js_get d "type") "number") eqn:Hnum.
  - destruct (truthy (js_get d "format") && negb (isValidNumberFormat (js_get d "format")))
      eqn:Hfmt; [|discriminate].
    apply andb_true_iff in Hfmt. destruct Hfmt as [_ Hfmt]. apply negb_true_iff in Hfmt.
    destruct (ToString Number_toString Date_toString (js_get d "format")) eqn:Hs;
      [discriminate|].
    injection H as <-. split; [reflexivity|]. exists name, d. auto.
  - destruct (is_string_lit (js_get d "type") "select"
              || is_string_lit (js_get d "type") "multi_select"); [|discriminate].
    destruct (negb (js_in "options" d) || negb (Array_isArray (js_get d "options")));
      discriminate.
Qed.

Lemma structure_check_throws_witness :
  TypeError = TypeError
  /\ exists name d,
       In (name, d) (Object_entries (js_get schema_with_odd_format "properties"))
       /\ is_string_lit (js_get d "type") "number" = true
       /\ isValidNumberFormat (js_get d "format") = false
       /\ ToString no_rendering no_rendering (js_get d "format") = None.
Proof.
  apply (@structure_check_throws no_rendering no_rendering schema_with_odd_format
           DEFAULT_VALIDATION_CONFIG TypeError). reflexivity.
Defined.

Section Constructor.

Variable Number_toString : float64 -> string.
Variable Date_toString : float64 -> string.



End Constructor.


(** ** Runtime value validation, continued *)

Section Values.

Variable URL_protocol : string -> option string.

Lemma filter_head_In {A : Type} (f : A -> bool) (l : list A) (first : A) (rest : list A) :
  filter f l = first :: rest -> In first l /\ f first = true.
Proof.
  intros H. apply filter_In. rewrite H. now left.
Qed.

(** X11: what [validatePropertyValue] throws, it throws on a value that
    is not null or undefined, and it is a [PropertyValidationError] with
    the given name and the given value, or a [SelectionValidationError]
    with the given name, the options of the [select] or [multi_select]
    definition, and a value outside them: the given value for a [select],
    an element of the given array for a [multi_select]. *)
Theorem validatePropertyValue_throws (value : JsValue) (definition : PropertyDefinition)
    (name : string) (thrown : Thrown) :
  validatePropertyValue URL_protocol value definition name = Throw thrown ->
  is_nullish value = false
  /\ ((exists expected,
          thrown = NotionError (PropertyValidationError name value expected))
      \/ (exists bad options,
             thrown = NotionError (SelectionValidationError name bad options)
             /\ includes options bad = false
             /\ ((definition = select options /\ bad = value)
                 \/ (definition = multi_select options
                     /\ exists items, value = JsArray items /\ In bad items)))).
Proof.
  unfold validatePropertyValue.
  destruct (is_nullish value) eqn:Hnull; [discriminate|].
  intros H. split; [reflexivity|].
  destruct definition as [ | | format | | | | | options | options | ].
  all: try (unfold throw_if in H;
            repeat match type of H with
                   | context [match ?x with _ => _ end] => destruct x
                   end;
            try discriminate H; injection H as <-; left; eauto; fail).
  - (* select *)
    unfold throw_if in H. cbn [seq bind] in H.
    destruct (negb (typeof_is value "string")).
    + injection H as <-. left. eauto.
    + cbn in H. destruct (includes options value) eqn:Hin; [discriminate H|].
      injection H as <-. right. exists value, options. auto.
  - (* multi_select *)
    destruct value as [ | | b | x | s | t | items | fields ];
      try (injection H as <-; left; eauto; fail).
    unfold throw_if in H.
    destruct (negb (forallb (fun v => typeof_is v "string") items)).
    + injection H as <-. left. eauto.
    + cbn in H.
      destruct (filter (fun v => negb (includes options v)) items) as [|first rest] eqn:Hf;
        [discriminate H|].
      injection H as <-. apply filter_head_In in Hf. destruct Hf as [Hin Hbad].
      right. exists first, options. split; [reflexivity|].
      split; [now apply negb_true_iff|]. right. eauto.
Qed.

(** X12: [validatePropertyValue] returns on a string for a [select]
    exactly when it is one of the options, and on an array of strings for
    a [multi_select] exactly when each of them is. *)
Theorem selection_membership (options items : list string) (s name : string) :
  (validatePropertyValue URL_protocol (JsString s) (select options) name = Ok tt
   <-> In s options)
  /\ (validatePropertyValue URL_protocol (JsArray (map JsString items))
        (multi_select options) name = Ok tt
      <-> incl items options).
Proof.
  split.
  - rewrite <- includes_string. unfold validatePropertyValue. cbn.
    destruct (mem_string s options); cbn; split; intros; try reflexivity; discriminate.
  - unfold validatePropertyValue. cbn [is_nullish]. rewrite all_strings_map. cbn.
    induction items as [|a items IH]; cbn.
    + split; [intros _ x [] | reflexivity].
    + destruct (mem_string a options) eqn:Ha; cbn.
      * apply mem_string_In in Ha. rewrite IH. split.
        -- intros Hincl x [<- | Hx]; [exact Ha | now apply Hincl].
        -- intros Hincl x Hx. apply Hincl. now right.
      * split; [discriminate|]. intros Hincl.
        assert (Hin : In a options) by (apply Hincl; now left).
        apply mem_string_In in Hin. congruence.
Qed.

(** X13: on a property of the schema that is not a contact property,
    the bound predicate answers whether [validatePropertyValue]
    returns. *)
Theorem predicate_agrees_off_contact (h : TypedSchema) (name : string)
    (d : PropertyDefinition) (value : JsValue) :
  assoc name (properties (_definition h)) = Some d ->
  isContactProperty d = false ->
  createPropertyValidator h name value
  = Ok (returns (validatePropertyValue URL_protocol value d name)).
Proof.
  intros Hown Hcontact. apply validator_agrees; [exact Hown|].
  destruct d; try reflexivity; discriminate Hcontact.
Qed.

(** X14: [validatePropertyValue] returns on a string for an [email]
    exactly when it has the form [local@domain.tld], each part a
    non-empty run of characters other than whitespace and [@], and at
    most 254 characters. *)
Theorem email_rule (address name : string) :
  validatePropertyValue URL_protocol (JsString address) email name = Ok tt
  <-> (exists local domain tld,
          address = (local ++ "@" ++ domain ++ "." ++ tld)%string
          /\ email_part local /\ email_part domain /\ email_part tld)
      /\ (String.length address <= 254)%nat.
Proof.
  rewrite <- isValidEmail_spec. unfold validatePropertyValue, throw_if. cbn [is_nullish].
  destruct (isValidEmail address); cbn; split; intros; try reflexivity; discriminate.
Qed.

(** X15: on every variant, a value on which [validatePropertyValue]
    returns satisfies the bound predicate of a handle with that
    property. *)
Theorem returned_value_passes_predicate (h : TypedSchema) (name : string)
    (d : PropertyDefinition) (value : JsValue) :
  assoc name (properties (_definition h)) = Some d ->
  validatePropertyValue URL_protocol value d name = Ok tt ->
  createPropertyValidator h name value = Ok true.
Proof. apply validator_sound. Qed.

End Values.


Lemma validatePropertyValue_throws_witness :
  is_nullish (JsString "Oops") = false
  /\ ((exists expected,
          NotionError (SelectionValidationError "Status" (JsString "Oops") ["Open"; "Done"])
          = NotionError (PropertyValidationError "Status" (JsString "Oops") expected))
      \/ (exists bad options,
             NotionError (SelectionValidationError "Status" (JsString "Oops") ["Open"; "Done"])
             = NotionError (SelectionValidationError "Status" bad options)
             /\ includes options bad = false
             /\ ((select ["Open"; "Done"] = select options /\ bad = JsString "Oops")
                 \/ (select ["Open"; "Done"] = multi_select options
                     /\ exists items, JsString "Oops" = JsArray items /\ In bad items)))).
Proof.
  apply (@validatePropertyValue_throws no_URL (JsString "Oops") (select ["Open"; "Done"])
           "Status"
           (NotionError (SelectionValidationError "Status" (JsString "Oops")
                           ["Open"; "Done"]))).
  reflexivity.
Defined.

Lemma predicate_agrees_off_contact_witness :
  createPropertyValidator (handle_of basicUserSchema) "Active" (JsString "yes")
  = Ok (returns (validatePropertyValue no_URL (JsString "yes") checkbox "Active")).
Proof.
  apply (@predicate_agrees_off_contact no_URL (handle_of basicUserSchema) "Active"
           checkbox (JsString "yes")); reflexivity.
Defined.

Lemma returned_value_passes_predicate_witness :
  createPropertyValidator (handle_of contactSchema) "Email" (JsString "a@b.co") = Ok true.
Proof.
  apply (@returned_value_passes_predicate no_URL (handle_of contactSchema) "Email" email
           (JsString "a@b.co")); vm_compute; reflexivity.
Defined.

(** ** The handle, continued *)


(** X16: [hasProperty] holds exactly of the names of the schema and of
    the members of [Object.prototype]; [getProperty] returns exactly when
    it holds, with the stored definition on a name of the schema, and
    throws [PropertyAccessError] with the name and the database id when it
    does not. *)
Theorem property_lookup (h : TypedSchema) (name : string) :
  (hasProperty h name = true
   <-> In name (propertyNames h) \/ In name Object_prototype_keys)
  /\ returns (getProperty h name) = hasProperty h name
  /\ (In name (propertyNames h) ->
      exists d, getProperty h name = Ok (Own d)
                /\ In (name, d) (properties (_definition h)))
  /\ (hasProperty h name = false ->
      getProperty h name
      = Throw (PropertyAccessError name (databaseId (_definition h)))).
Proof.
  split; [|split; [|split]].
  - unfold hasProperty, Record_in, has_own, propertyNames.
    rewrite orb_true_iff, mem_string_In. split.
    + intros [H | H]; [left | now right].
      destruct (assoc name (properties (_definition h))) as [d|] eqn:E; [|discriminate].
      apply assoc_Some_In in E. apply (in_map fst) in E. exact E.
    + intros [H | H]; [left | now right].
      apply assoc_In in H. destruct H as [d ->]. reflexivity.
  - unfold getProperty. destruct (hasProperty h name); reflexivity.
  - intros H. apply assoc_In in H. destruct H as [d Hd]. exists d.
    split; [apply (getProperty_own h name Hd) | now apply assoc_Some_In].
  - intros H. unfold getProperty. now rewrite H.
Qed.

(** X17: [getTitleProperty] returns an entry exactly when it is the one
    entry [getPropertiesByType] lists for ["title"]; [getPropertiesByType]
    lists the entries of the schema of the given type, and none for a
    string that is not a property type. *)
Theorem title_by_type (h : TypedSchema) (entry : string * PropertyDefinition) :
  (getTitleProperty h = Ok entry <-> getPropertiesByType h "title" = [entry])
  /\ (forall type other,
         In other (getPropertiesByType h type)
         <-> In other (properties (_definition h)) /\ type_of (snd other) = type)
  /\ (forall type, isValidPropertyType type = false -> getPropertiesByType h type = []).
Proof.
  split; [|split].
  - unfold getTitleProperty, getPropertiesByType, is_title.
    destruct (filter _ (properties (_definition h))) as [|first [|second rest]].
    + split; discriminate.
    + split; intros [= ->]; reflexivity.
    + split; discriminate.
  - intros type other. unfold getPropertiesByType. rewrite filter_In, String.eqb_eq. tauto.
  - intros type Hbad. unfold getPropertiesByType.
    apply filter_nil_forallb, forallb_forall. intros [n d] _. cbn [snd].
    apply negb_true_iff, String.eqb_neq. intros <-.
    destruct d; discriminate Hbad.
Qed.

(** X18: a handle constructed from a schema literal with ordinary names
    wraps that literal; it has one to twenty properties, an identifier of
    36 characters, one title entry that [getTitleProperty] returns, and
    every definition with selection options has one option at least and
    no option twice. *)
Theorem constructed_invariants (now : float64) (s : SchemaDefinition) (h : TypedSchema) :
  ordinary_names s = true ->
  new_TypedSchema now s = Ok h ->
  _definition h = s
  /\ 1 <= List.length (propertyNames h) <= 20
  /\ String.length (databaseId s) = 36
  /\ (exists entry, getTitleProperty h = Ok entry
                    /\ getPropertiesByType h "title" = [entry])
  /\ (forall name d, In (name, d) (properties s) ->
        hasSelectionOptions d = true ->
        exists options, (d = select options \/ d = multi_select options)
                        /\ options <> [] /\ NoDup options).
Proof.
  intros Hnames Hnew. pose proof (new_TypedSchema_definition _ _ Hnew) as Hdef.
  pose proof (new_TypedSchema_accepted _ _ Hnew) as [Hrules Hcount].
  rewrite (validated_ordinary _ Hnames) in Hrules, Hcount.
  unfold creation_rules in Hrules. rewrite !andb_true_iff in Hrules.
  destruct Hrules as [[[[_ Hid] Hall] Hmin] Hmax].
  apply Nat.ltb_lt in Hmin. apply Nat.leb_le in Hmax.
  apply isValidDatabaseId_spec in Hid. rewrite forallb_forall in Hall.
  split; [exact Hdef|]. split; [unfold propertyNames; rewrite Hdef, length_map; lia|].
  split; [apply Hid|]. split.
  - unfold getTitleProperty, getPropertiesByType, is_title. rewrite Hdef.
    unfold titleCount, is_title in Hcount.
    destruct (filter _ (properties s)) as [|first [|second rest]]; try discriminate Hcount.
    eauto.
  - intros name d Hin Hsel. apply Hall in Hin. cbn [snd] in Hin.
    destruct d; try discriminate Hsel; eexists; (split; [eauto|]);
      now apply options_accepted_spec.
Qed.

Lemma constructed_invariants_witness :
  _definition (handle_of basicUserSchema) = basicUserSchema
  /\ 1 <= List.length (propertyNames (handle_of basicUserSchema)) <= 20
  /\ String.length (databaseId basicUserSchema) = 36
  /\ (exists entry, getTitleProperty (handle_of basicUserSchema) = Ok entry
                    /\ getPropertiesByType (handle_of basicUserSchema) "title" = [entry])
  /\ (forall name d, In (name, d) (properties basicUserSchema) ->
        hasSelectionOptions d = true ->
        exists options, (d = select options \/ d = multi_select options)
                        /\ options <> [] /\ NoDup options).
Proof.
  apply (@constructed_invariants PrimFloat.zero basicUserSchema
           (handle_of basicUserSchema)); reflexivity.
Defined.


(** ** The performance monitor *)

Lemma assoc_Map_set_same {A : Type} (key : string) (value : A) (entries : list (string * A)) :
  assoc key (Map_set key value entries) = Some value.
Proof.
  induction entries as [|[k a] rest IH]; simpl.
  - now rewrite String.eqb_refl.
  - destruct (String.eqb k key) eqn:E; simpl; rewrite E; [reflexivity | exact IH].
Qed.

Lemma assoc_Map_set_other {A : Type} (key other : string) (value : A)
    (entries : list (string * A)) :
  String.eqb key other = false ->
  assoc other (Map_set key value entries) = assoc other entries.
Proof.
  intros Hne. induction entries as [|[k a] rest IH]; simpl.
  - now rewrite Hne.
  - destruct (String.eqb k key) eqn:E; simpl.
    + apply String.eqb_eq in E. subst k. now rewrite Hne.
    + destruct (String.eqb k other); [reflexivity | exact IH].
Qed.

Lemma kept_recordOperation (this : PerformanceMonitor.t) (operation other : string)
    (duration : float64) :
  kept (PerformanceMonitor.recordOperation this operation duration) other
  = if String.eqb operation other then push_shift (kept this operation) duration
    else kept this other.
Proof.
  unfold kept, PerformanceMonitor.timings_of, PerformanceMonitor.recordOperation, push_shift.
  cbn [PerformanceMonitor.operationTimings].
  destruct (String.eqb operation other) eqn:E.
  - apply String.eqb_eq in E. subst other. rewrite assoc_Map_set_same.
    unfold has_own. destruct (assoc operation (PerformanceMonitor.operationTimings this)) eqn:Ha;
      cbn [negb].
    + rewrite Ha. reflexivity.
    + rewrite assoc_Map_set_same. reflexivity.
  - rewrite assoc_Map_set_other by exact E.
    destruct (negb (has_own operation (PerformanceMonitor.operationTimings this)));
      [now rewrite assoc_Map_set_other by exact E | reflexivity].
Qed.

Lemma push_shift_lastn (history : list float64) (duration : float64) :
  push_shift (lastn 100 history) duration = lastn 100 (history ++ [duration]).
Proof.
  unfold push_shift, lastn. rewrite !length_app, length_skipn. cbn [List.length].
  destruct (Nat.le_gt_cases (List.length history) 99) as [Hle | Hgt].
  - replace (List.length history - 100) with 0 by lia.
    replace (List.length history + 1 - 100) with 0 by lia.
    cbn [skipn]. replace (100 <? List.length history - 0 + 1)%nat with false
      by (symmetry; apply Nat.ltb_ge; lia).
    reflexivity.
  - replace (100 <? List.length history - (List.length history - 100) + 1)%nat with true
      by (symmetry; apply Nat.ltb_lt; lia).
    change (tl ?l) with (skipn 1 l).
    rewrite !skipn_app, skipn_skipn, length_skipn.
    replace (1 + (List.length history - 100)) with (List.length history + 1 - 100) by lia.
    f_equal.
    replace (1 - (List.length history - (List.length history - 100))) with 0 by lia.
    replace (List.length history + 1 - 100 - List.length history) with 0 by lia.
    reflexivity.
Qed.

Lemma kept_record (monitor : PerformanceMonitor.t) (call : Recording) (operation : string) :
  kept (record monitor call) operation
  = match filed_under call with
    | Some (name, d) =>
        if String.eqb name operation then push_shift (kept monitor operation) d
        else kept monitor operation
    | None => []
    end.
Proof.
  destruct call; cbn [record filed_under];
    unfold PerformanceMonitor.recordSchemaCreation, PerformanceMonitor.recordQueryExecution,
           PerformanceMonitor.recordPropertyValidation, PerformanceMonitor.recordTypeInference;
    try rewrite kept_recordOperation; try reflexivity.
  all: match goal with
       | |- context [String.eqb ?a ?b] =>
           destruct (String.eqb a b) eqn:E;
           [apply String.eqb_eq in E; subst; reflexivity | reflexivity]
       end.
Qed.

Lemma length_lastn {A : Type} (n : nat) (l : list A) : List.length (lastn n l) <= n.
Proof. unfold lastn. rewrite length_skipn. lia. Qed.

(** X19: after any sequence of recording calls and resets on a new
    monitor, the measurements kept for an operation are the last hundred
    of the durations filed under it since the last reset, oldest first;
    [recordSchemaCreation], [recordQueryExecution],
    [recordPropertyValidation] and [recordTypeInference] file under
    ["schema_creation"], ["query_execution"], ["property_validation"] and
    ["type_inference"]. *)
Theorem monitor_keeps_last_hundred (calls : list Recording) (operation : string) :
  kept (record_all PerformanceMonitor.fresh calls) operation
  = lastn 100 (recorded operation calls)
  /\ List.length (kept (record_all PerformanceMonitor.fresh calls) operation) <= 100.
Proof.
  assert (H : kept (record_all PerformanceMonitor.fresh calls) operation
              = lastn 100 (recorded operation calls)).
  { induction calls as [|call calls IH] using rev_ind; [reflexivity|].
    unfold record_all, recorded in *. rewrite !fold_left_app. cbn [fold_left].
    rewrite kept_record, IH.
    destruct (filed_under call) as [[name d]|]; [|reflexivity].
    destruct (String.eqb name operation); [apply push_shift_lastn | reflexivity]. }
  split; [exact H | rewrite H; apply length_lastn].
Qed.

Lemma length_append (s1 s2 : string) :
  String.length (s1 ++ s2)%string = String.length s1 + String.length s2.
Proof. induction s1 as [|c s1 IH]; simpl; [reflexivity | now rewrite IH]. Qed.

Lemma error_name_differs (operation : string) :
  String.eqb (template [operation; "_error"]) operation = false.
Proof.
  apply String.eqb_neq. intros H. apply (f_equal String.length) in H.
  unfold template in H. cbn [String.concat] in H.
  rewrite !length_append in H. simpl in H. lia.
Qed.

Ltac files_under_own_name :=
  unfold PerformanceMonitor.recordSchemaCreation, PerformanceMonitor.recordQueryExecution,
         PerformanceMonitor.recordPropertyValidation, PerformanceMonitor.recordTypeInference;
  rewrite kept_recordOperation; reflexivity.

Lemma kept_record_measured (monitor : PerformanceMonitor.t) (operation other : string)
    (duration : float64) :
  kept (record_measured monitor operation duration) other
  = if String.eqb operation other then push_shift (kept monitor operation) duration
    else kept monitor other.
Proof.
  unfold record_measured.
  destruct (String.eqb operation "schema_creation") eqn:E1;
    [apply String.eqb_eq in E1; subst operation; files_under_own_name|].
  destruct (String.eqb operation "query_execution") eqn:E2;
    [apply String.eqb_eq in E2; subst operation; files_under_own_name|].
  destruct (String.eqb operation "property_validation") eqn:E3;
    [apply String.eqb_eq in E3; subst operation; files_under_own_name|].
  destruct (String.eqb operation "type_inference") eqn:E4;
    [apply String.eqb_eq in E4; subst operation; files_under_own_name|].
  apply kept_recordOperation.
Qed.

(** X20: [measurePerformance] returns what the measured function returns
    and throws what it throws; the duration is filed under the operation
    when the function returns and under the operation followed by
    ["_error"] when it throws, the measurements of every other operation
    being left as the function left them, so that a failed run is never
    filed under the operation itself. *)
Theorem measurePerformance_outcome {T : Type} (operation : string)
    (fn : PerformanceMonitor.t -> PerformanceMonitor.t * Result T)
    (startTime endTime : float64) (created : PerformanceMonitor.instance) :
  let ran := fn (PerformanceMonitor.getInstance created) in
  let duration := PrimFloat.sub endTime startTime in
  exists monitor,
    measurePerformance operation fn startTime endTime created = (Some monitor, snd ran)
    /\ (forall other,
         kept monitor other
         = if String.eqb (if returns (snd ran) then operation
                          else template [operation; "_error"]) other
           then push_shift (kept (fst ran) other) duration
           else kept (fst ran) other)
    /\ (returns (snd ran) = false -> kept monitor operation = kept (fst ran) operation).
Proof.
  intros ran duration. unfold measurePerformance. fold ran. fold duration.
  destruct ran as [after [result | error]]; cbn [fst snd returns].
  - eexists. split; [reflexivity|]. split; [|discriminate].
    intros other. rewrite kept_record_measured.
    destruct (String.eqb operation other) eqn:E; [|reflexivity].
    apply String.eqb_eq in E. now subst.
  - eexists. split; [reflexivity|]. split.
    + intros other. rewrite kept_recordOperation.
      destruct (String.eqb (template [operation; "_error"]) other) eqn:E; [|reflexivity].
      apply String.eqb_eq in E. now subst.
    + intros _. now rewrite kept_recordOperation, error_name_differs.
Qed.
